(** * Monoscope Go SDKs: the Gorilla Mux and Fiber middlewares

    A shallow embedding of [gorilla/gorilla.go] and [fiber/fiber.go] of
    monoscope-go, with the parts of the root package [apt] they call, and the
    properties of the capture, redact, correlate, emit pipeline that the
    specification states about them.

    Layout: [Json] (structured bodies and their text form), [Apt] (the root
    package: errors, correlation state, redaction, payload, span), [Gorilla]
    and [Fiber] (the two adapters), [Scenarios] (concrete requests and
    handlers), then the lemmas. *)

From Stdlib Require Import ZArith List Strings.Byte Ascii String DecimalZ.
From stdpp Require Import gmap strings list fin_maps.

(** Go's [[]byte]. *)
Abbreviation bytes := (list byte).

#[global] Instance byte_eq_dec : EqDecision byte := Byte.byte_eq_dec.

(** The bytes of a string literal, as Go's [[]byte("...")]. *)
Definition b (s : string) : bytes := list_byte_of_string s.

(* ===================================================================== *)
(** * Structured bodies *)
(* ===================================================================== *)

Module Json.

(** A JSON-like value. Object fields are kept as an association list: the
    order and the repetitions of the keys are part of the text form. *)
#[local] Unset Elimination Schemes.
Inductive value : Type :=
| Null
| Bool (t : bool)
| Num (z : Z)
| Str (s : bytes)
| Arr (items : list value)
| Obj (fields : list (bytes * value)).
#[local] Set Elimination Schemes.

(** ** Text form *)

Definition isWs (c : byte) : bool :=
  match c with
  | x20 | x09 | x0a | x0d => true
  | _ => false
  end.

Fixpoint skipWs (inp : bytes) : bytes :=
  match inp with
  | c :: rest => if isWs c then skipWs rest else inp
  | [] => []
  end.

Definition digitOf (c : byte) : option (Decimal.uint -> Decimal.uint) :=
  match c with
  | x30 => Some Decimal.D0 | x31 => Some Decimal.D1 | x32 => Some Decimal.D2
  | x33 => Some Decimal.D3 | x34 => Some Decimal.D4 | x35 => Some Decimal.D5
  | x36 => Some Decimal.D6 | x37 => Some Decimal.D7 | x38 => Some Decimal.D8
  | x39 => Some Decimal.D9
  | _ => None
  end.

Definition isDigit (c : byte) : bool :=
  match digitOf c with Some _ => true | None => false end.

Fixpoint renderUint (u : Decimal.uint) : bytes :=
  match u with
  | Decimal.Nil => []
  | Decimal.D0 u => x30 :: renderUint u
  | Decimal.D1 u => x31 :: renderUint u
  | Decimal.D2 u => x32 :: renderUint u
  | Decimal.D3 u => x33 :: renderUint u
  | Decimal.D4 u => x34 :: renderUint u
  | Decimal.D5 u => x35 :: renderUint u
  | Decimal.D6 u => x36 :: renderUint u
  | Decimal.D7 u => x37 :: renderUint u
  | Decimal.D8 u => x38 :: renderUint u
  | Decimal.D9 u => x39 :: renderUint u
  end.

Definition renderInt (z : Z) : bytes :=
  match Z.to_int z with
  | Decimal.Pos u => renderUint u
  | Decimal.Neg u => x2d :: renderUint u
  end.

(** The longest run of decimal digits at the head of the input. *)
Fixpoint parseUint (inp : bytes) : Decimal.uint * bytes :=
  match inp with
  | c :: rest =>
      match digitOf c with
      | Some d => let '(u, rest') := parseUint rest in (d u, rest')
      | None => (Decimal.Nil, inp)
      end
  | [] => (Decimal.Nil, [])
  end.

(** An integer literal: an optional minus sign and at least one digit. *)
Definition parseInt (inp : bytes) : option (Z * bytes) :=
  match inp with
  | x2d :: rest =>
      match parseUint rest with
      | (Decimal.Nil, _) => None
      | (u, rest') => Some (Z.of_int (Decimal.Neg u), rest')
      end
  | _ =>
      match parseUint inp with
      | (Decimal.Nil, _) => None
      | (u, rest') => Some (Z.of_int (Decimal.Pos u), rest')
      end
  end.

(** Inside a string literal, the quote, the backslash and the usual control
    characters are written as a backslash and one letter. *)
Definition escapeByte (c : byte) : bytes :=
  match c with
  | x22 => [x5c; x22]
  | x5c => [x5c; x5c]
  | x08 => [x5c; x62]
  | x0c => [x5c; x66]
  | x0a => [x5c; x6e]
  | x0d => [x5c; x72]
  | x09 => [x5c; x74]
  | _ => [c]
  end.

Definition unescapeByte (c : byte) : option byte :=
  match c with
  | x22 => Some x22
  | x5c => Some x5c
  | x2f => Some x2f
  | x62 => Some x08
  | x66 => Some x0c
  | x6e => Some x0a
  | x72 => Some x0d
  | x74 => Some x09
  | _ => None
  end.

Fixpoint escape (s : bytes) : bytes :=
  match s with
  | c :: s' => escapeByte c ++ escape s'
  | [] => []
  end.

Definition renderString (s : bytes) : bytes := x22 :: escape s ++ [x22].

(** The contents of a string literal whose opening quote has been read, up
    to and including the closing quote. *)
Fixpoint parseStringBody (inp : bytes) : option (bytes * bytes) :=
  match inp with
  | [] => None
  | x22 :: rest => Some ([], rest)
  | x5c :: rest =>
      match rest with
      | [] => None
      | e :: rest' =>
          match unescapeByte e, parseStringBody rest' with
          | Some c, Some (s, rest'') => Some (c :: s, rest'')
          | _, _ => None
          end
      end
  | c :: rest =>
      match parseStringBody rest with
      | Some (s, rest') => Some (c :: s, rest')
      | None => None
      end
  end.

(** The items of an array and the fields of an object, separated by
    commas. *)
Definition renderItems (render : value → bytes) : list value → bytes :=
  fix go (vs : list value) : bytes :=
    match vs with
    | [] => []
    | [v] => render v
    | v :: vs' => render v ++ x2c :: go vs'
    end.

Definition renderFields (render : value → bytes) : list (bytes * value) → bytes :=
  fix go (fs : list (bytes * value)) : bytes :=
    match fs with
    | [] => []
    | [(k, v)] => renderString k ++ x3a :: render v
    | (k, v) :: fs' => renderString k ++ x3a :: render v ++ x2c :: go fs'
    end.

Fixpoint render (v : value) : bytes :=
  match v with
  | Null => b "null"
  | Bool true => b "true"
  | Bool false => b "false"
  | Num z => renderInt z
  | Str s => renderString s
  | Arr items => x5b :: renderItems render items ++ [x5d]
  | Obj fields => x7b :: renderFields render fields ++ [x7d]
  end.

(** The parser is driven by fuel; [parse] below supplies enough of it. *)
Fixpoint parseValue (fuel : nat) (inp : bytes) : option (value * bytes) :=
  match fuel with
  | O => None
  | S fuel' =>
      match skipWs inp with
      | x6e :: x75 :: x6c :: x6c :: rest => Some (Null, rest)
      | x74 :: x72 :: x75 :: x65 :: rest => Some (Bool true, rest)
      | x66 :: x61 :: x6c :: x73 :: x65 :: rest => Some (Bool false, rest)
      | x22 :: rest =>
          match parseStringBody rest with
          | Some (s, rest') => Some (Str s, rest')
          | None => None
          end
      | x5b :: rest =>
          match skipWs rest with
          | x5d :: rest' => Some (Arr [], rest')
          | _ =>
              match parseItems fuel' rest with
              | Some (vs, rest') => Some (Arr vs, rest')
              | None => None
              end
          end
      | x7b :: rest =>
          match skipWs rest with
          | x7d :: rest' => Some (Obj [], rest')
          | _ =>
              match parseFields fuel' rest with
              | Some (fs, rest') => Some (Obj fs, rest')
              | None => None
              end
          end
      | other =>
          match parseInt other with
          | Some (z, rest) => Some (Num z, rest)
          | None => None
          end
      end
  end
with parseItems (fuel : nat) (inp : bytes) : option (list value * bytes) :=
  match fuel with
  | O => None
  | S fuel' =>
      match parseValue fuel' inp with
      | Some (v, rest) =>
          match skipWs rest with
          | x2c :: rest' =>
              match parseItems fuel' rest' with
              | Some (vs, rest'') => Some (v :: vs, rest'')
              | None => None
              end
          | x5d :: rest' => Some ([v], rest')
          | _ => None
          end
      | None => None
      end
  end
with parseFields (fuel : nat) (inp : bytes) : option (list (bytes * value) * bytes) :=
  match fuel with
  | O => None
  | S fuel' =>
      match skipWs inp with
      | x22 :: rest =>
          match parseStringBody rest with
          | Some (k, rest1) =>
              match skipWs rest1 with
              | x3a :: rest2 =>
                  match parseValue fuel' rest2 with
                  | Some (v, rest3) =>
                      match skipWs rest3 with
                      | x2c :: rest4 =>
                          match parseFields fuel' rest4 with
                          | Some (fs, rest5) => Some ((k, v) :: fs, rest5)
                          | None => None
                          end
                      | x7d :: rest4 => Some ([(k, v)], rest4)
                      | _ => None
                      end
                  | None => None
                  end
              | _ => None
              end
          | None => None
          end
      | _ => None
      end
  end.

(** A body is structured when it is one value, with nothing but blanks
    after it. *)
Definition parse (inp : bytes) : option value :=
  match parseValue (S (length inp)) inp with
  | Some (v, rest) =>
      match skipWs rest with
      | [] => Some v
      | _ => None
      end
  | None => None
  end.

(** ** Measures for the proofs *)

(** Fuel that suffices to parse the text form of a value. *)
Fixpoint size (v : value) : nat :=
  match v with
  | Arr vs => S (list_sum ((λ v, S (size v)) <$> vs))
  | Obj fs => S (list_sum ((λ kv, S (size kv.2)) <$> fs))
  | _ => 1
  end.

(** The bytes the text form of a value may start with. *)
Definition startsValue (c : byte) : bool :=
  match c with
  | x6e | x74 | x66 | x22 | x5b | x7b | x2d => true
  | _ => isDigit c
  end.

(** What may follow an integer literal: anything but a digit. *)
Definition endsNumber (rest : bytes) : Prop :=
  match rest with
  | c :: _ => digitOf c = None
  | [] => True
  end.

(** The parser, given the text form of [v] followed by [rest], returns [v]
    and [rest], whatever fuel above [size v] it is given. *)
Definition parsesBack (v : value) : Prop :=
  ∀ fuel rest, size v ≤ fuel → endsNumber rest →
    parseValue fuel (render v ++ rest) = Some (v, rest).

End Json.

(* ===================================================================== *)
(** * The root package [apt] (github.com/monoscope-tech/monoscope-go) *)
(* ===================================================================== *)

Module Apt.

(** ** Go values the middlewares handle *)

(** A value of Go's [error] interface: its dynamic type and its [Error()]
    text. *)
Record error := { errType : string; errMsg : string }.

#[global] Instance error_eq_dec : EqDecision error.
Proof. solve_decision. Defined.

(** [errors.New(s)]. *)
Definition errors_New (s : string) : error :=
  {| errType := "*errors.errorString"; errMsg := s |}.

(** A value of Go's [interface{}], as [recover()] returns it: [panic] is
    called with an error, with a string, or with a value of any other type
    (given by the name of its type and its printed form). *)
Inductive any :=
| AnyError (e : error)
| AnyString (s : string)
| AnyOther (goType : string) (repr : string).

#[global] Instance any_eq_dec : EqDecision any.
Proof. solve_decision. Defined.

(** The type assertion [v.(error)], [None] when it fails. *)
Definition asError (v : any) : option error :=
  match v with AnyError e => Some e | _ => None end.

(** The type assertion [v.(string)], [None] when it fails. *)
Definition asString (v : any) : option string :=
  match v with AnyString s => Some s | _ => None end.

(** The run-time panic of a failed type assertion [v.(string)]. *)
Definition typeAssertionError (v : any) : error :=
  {| errType := "*runtime.TypeAssertionError";
     errMsg := match v with
               | AnyOther t _ => "interface conversion: interface {} is " +:+ t +:+ ", not string"
               | _ => "interface conversion"
               end |}.

(** ** Configuration: [apt.Config] *)

Record Config := {
  Debug : bool;
  ServiceVersion : string;
  ServiceName : string;
  RedactHeaders : list string;
  RedactRequestBody : list string;
  RedactResponseBody : list string;
  Tags : list string;
  CaptureRequestBody : bool;
  CaptureResponseBody : bool;
}.

(** Modelled from the spec: the producing-SDK tags [apt.GoGorillaMux] and
    [apt.GoFiberSDKType], constants of the root package. *)
Inductive SDKType := GoGorillaMux | GoFiberSDKType.

(** ** Correlation state *)

(** Modelled from the spec: [apt.ATError], the record of one reported error
    (section 3, ReportedError: a classification and the message). *)
Record ATError := { ErrorType : string; Message : string }.

Definition toATError (e : error) : ATError :=
  {| ErrorType := errType e; Message := errMsg e |}.

(** A request-scoped [context.Context], by the two keys the SDK stores in it:
    [apt.ErrorListCtxKey], whose value is the pointer [&errorList] to the
    request's error list, and [apt.CurrentRequestMessageID]. A request has one
    error list, so the pointer is modelled by its presence. *)
Record Context := { hasErrorList : bool; messageID : option N }.

Definition Background : Context := {| hasErrorList := false; messageID := None |}.

(** [context.WithValue(ctx, apt.ErrorListCtxKey, &errorList)]. *)
Definition WithErrorList (ctx : Context) : Context :=
  {| hasErrorList := true; messageID := messageID ctx |}.

(** [context.WithValue(ctx, apt.CurrentRequestMessageID, msgID)]. *)
Definition WithMessageID (ctx : Context) (msgID : N) : Context :=
  {| hasErrorList := hasErrorList ctx; messageID := Some msgID |}.

(** Modelled from the spec: [apt.ReportError] (section 4.2). It looks up the
    error list in the context; if absent the error is dropped, if present one
    record is appended through the pointer. The last argument and the result
    are the contents of the request's [errorList] variable. *)
Definition ReportError (ctx : Context) (err : error) (errorList : list ATError)
  : list ATError :=
  if hasErrorList ctx then errorList ++ [toATError err] else errorList.

(** ** Redaction *)

Abbreviation Header := (gmap string (list string)).

Definition lowerAscii (c : ascii) : ascii :=
  let n := nat_of_ascii c in
  if (65 <=? n)%nat && (n <=? 90)%nat then ascii_of_nat (n + 32) else c.

Fixpoint toLower (s : string) : string :=
  match s with
  | EmptyString => EmptyString
  | String c s' => String (lowerAscii c) (toLower s')
  end.

(** Modelled from the spec: header redaction (section 4.3). The values of a
    header whose name is one of [names], compared without regard to case, are
    removed from the captured map. *)
Definition redactHeaders (names : list string) (h : Header) : Header :=
  filter (λ kv, toLower kv.1 ∉ toLower <$> names) h.

(** One step of a field path: a field of an object, an element of an array,
    or every child. *)
Inductive segment :=
| Field (name : bytes)
| Index (i : nat)
| Wild.

Abbreviation path := (list segment).

(** The longest prefix of a path expression that is a field name. *)
Fixpoint takeName (inp : bytes) : bytes * bytes :=
  match inp with
  | c :: rest =>
      match c with
      | x2e | x5b => ([], inp)
      | _ => let '(name, rest') := takeName rest in (c :: name, rest')
      end
  | [] => ([], [])
  end.

Fixpoint parseSegments (fuel : nat) (inp : bytes) : option path :=
  match fuel with
  | O => match inp with [] => Some [] | _ => None end
  | S fuel' =>
      match inp with
      | [] => Some []
      | x2e :: rest =>
          match takeName rest with
          | ([], _) => None
          | (name, rest') => cons (Field name) <$> parseSegments fuel' rest'
          end
      | x5b :: x2a :: x5d :: rest => cons Wild <$> parseSegments fuel' rest
      | x5b :: rest =>
          match Json.parseUint rest with
          | (Decimal.Nil, _) => None
          | (u, x5d :: rest') => cons (Index (Nat.of_uint u)) <$> parseSegments fuel' rest'
          | _ => None
          end
      | _ => None
      end
  end.

(** Modelled from the spec: the path syntax of section 4.3, dot and bracket
    addressing from the root [$]: [$.password], [$.user.credit_card],
    [$.items[0].id], [$.items[*].id]. An expression outside this syntax
    selects nothing. *)
Definition parsePath (expr : string) : option path :=
  match b expr with
  | x24 :: rest => parseSegments (length rest) rest
  | _ => None
  end.

(** Modelled from the spec: the fixed redaction marker. *)
Definition marker : Json.value := Json.Str (b "[CLIENT_REDACTED]").

Definition selField (s : segment) (k : bytes) : bool :=
  match s with
  | Field name => bool_decide (name = k)
  | Wild => true
  | Index _ => false
  end.

Definition selIndex (s : segment) (i : nat) : bool :=
  match s with
  | Index j => bool_decide (j = i)
  | Wild => true
  | Field _ => false
  end.

Definition onFields (sel : bytes → bool) (f : Json.value → Json.value)
    (fs : list (bytes * Json.value)) : list (bytes * Json.value) :=
  (λ kv, if sel kv.1 then (kv.1, f kv.2) else kv) <$> fs.

Definition onItems (sel : nat → bool) (f : Json.value → Json.value)
    (vs : list Json.value) : list Json.value :=
  imap (λ i v, if sel i then f v else v) vs.

(** Every value at a position the path matches is replaced by the marker;
    the keys stay. *)
Fixpoint redactAt (p : path) (v : Json.value) : Json.value :=
  match p with
  | [] => marker
  | s :: p' =>
      match v with
      | Json.Obj fs => Json.Obj (onFields (selField s) (redactAt p') fs)
      | Json.Arr vs => Json.Arr (onItems (selIndex s) (redactAt p') vs)
      | _ => v
      end
  end.

Definition redactValue (ps : list path) (v : Json.value) : Json.value :=
  fold_left (λ acc p, redactAt p acc) ps v.

(** Modelled from the spec: structured-field redaction of a captured body
    (section 4.3). The body is parsed as structured data; if parsing fails
    the body is left untouched; if it succeeds every value at a matching path
    is replaced by the marker and the result is written back as text. *)
Definition redact (body : bytes) (exprs : list string) : bytes :=
  match Json.parse body with
  | None => body
  | Some v => Json.render (redactValue (omap parsePath exprs) v)
  end.

(** ** Payload *)

(** Modelled from the spec: [apt.Payload] (section 3). *)
Record Payload := {
  pSdkType : SDKType;
  pServiceName : string;
  pServiceVersion : string;
  pTags : list string;
  pMsgID : N;
  pParentID : option N;
  pMethod : string;
  pRawURL : string;
  pURLPath : string;
  pPathParams : gmap string string;
  pReferer : string;
  pRequestHeaders : Header;
  pResponseHeaders : Header;
  pRequestBody : option bytes;
  pResponseBody : option bytes;
  pStatusCode : Z;
  pErrors : list ATError;
}.

(** What the payload builders read off the incoming request. *)
Record RequestLine := {
  rlMethod : string;
  rlRawURL : string;
  rlHeaders : Header;
  rlReferer : string;
}.

(** Modelled from the spec: the payload builder (section 4.4), a pure
    assembly step. Headers are redacted; a body is redacted and included only
    if its capture toggle is enabled. [apt.BuildPayload] and
    [apt.BuildFastHTTPPayload] take the same arguments in the same order, the
    request apart. *)
Definition buildPayload (sdk : SDKType) (req : RequestLine) (statusCode : Z)
    (reqBody respBody : bytes) (respHeader : Header)
    (pathParams : gmap string string) (urlPath : string)
    (redactHeadersList redactRequestBodyList redactResponseBodyList : list string)
    (errorList : list ATError) (msgID : N) (parentID : option N)
    (referer : string) (config : Config) : Payload :=
  {| pSdkType := sdk;
     pServiceName := ServiceName config;
     pServiceVersion := ServiceVersion config;
     pTags := Tags config;
     pMsgID := msgID;
     pParentID := parentID;
     pMethod := rlMethod req;
     pRawURL := rlRawURL req;
     pURLPath := urlPath;
     pPathParams := pathParams;
     pReferer := referer;
     pRequestHeaders := redactHeaders redactHeadersList (rlHeaders req);
     pResponseHeaders := redactHeaders redactHeadersList respHeader;
     pRequestBody :=
       if CaptureRequestBody config
       then Some (redact reqBody redactRequestBodyList) else None;
     pResponseBody :=
       if CaptureResponseBody config
       then Some (redact respBody redactResponseBodyList) else None;
     pStatusCode := statusCode;
     pErrors := errorList |}.

(** ** Span *)

(** A trace span, by what the middlewares do to it: the payloads attached so
    far and whether [End] has been called. *)
Record Span := { spanName : string; attached : list Payload; ended : bool }.

(** [tracer.Start(ctx, name, ...)]. *)
Definition StartSpan (name : string) : Span :=
  {| spanName := name; attached := []; ended := false |}.

(** Modelled from the spec: [apt.CreateSpan] attaches the payload to the
    span (section 6, [SpanHandle.attach]). *)
Definition CreateSpan (payload : Payload) (config : Config) (span : Span) : Span :=
  {| spanName := spanName span;
     attached := attached span ++ [payload];
     ended := ended span |}.

(** [span.End()]. *)
Definition End (span : Span) : Span :=
  {| spanName := spanName span; attached := attached span; ended := true |}.

End Apt.

(* ===================================================================== *)
(** * Go's [io] and [net/http], as far as the Gorilla adapter uses them *)
(* ===================================================================== *)

Module Io.

(** An [io.ReadCloser] that has not been read yet: the bytes it will deliver
    and how the stream ends, with [io.EOF] ([None]) or with an error. *)
Record Reader := { pending : bytes; failure : option Apt.error }.

(** [io.ReadAll(r)]: "reads from r until an error or EOF and returns the data
    it read"; the error is [nil] when the stream ended with EOF. *)
Definition ReadAll (r : Reader) : bytes * option Apt.error :=
  (pending r, failure r).

(** [bytes.NewBuffer(buf)] under [io.NopCloser]: delivers [buf], then EOF. *)
Definition NewBuffer (buf : bytes) : Reader :=
  {| pending := buf; failure := None |}.

(** One call [r.Read(p)] with [len(p) = n] and [n > 0]: the bytes delivered
    and the reader left. At the end of the data nothing is delivered. *)
Definition Read (n : nat) (r : Reader) : bytes * Reader :=
  (take n (pending r), {| pending := drop n (pending r); failure := failure r |}).

(** The bytes a caller obtains from successive calls of [Read] with buffers
    of the given sizes. *)
Fixpoint readChunks (sizes : list nat) (r : Reader) : list bytes :=
  match sizes with
  | [] => []
  | n :: sizes' => let '(chunk, r') := Read n r in chunk :: readChunks sizes' r'
  end.

End Io.

Module Http.

Definition StatusOK : Z := 200.
Definition StatusCreated : Z := 201.
Definition StatusInternalServerError : Z := 500.

(** The interface [http.ResponseWriter]: a state [W] with the three methods.
    [SetHeader k vs] stands for an assignment [w.Header()[k] = vs] to the map
    [Header()] returns. *)
Class ResponseWriter (W : Type) := {
  Header : W → Apt.Header;
  SetHeader : string → list string → W → W;
  Write : bytes → W → W * (Z * option Apt.error);
  WriteHeader : Z → W → W;
}.

(** What reaches the real response channel, call by call. *)
Inductive WireCall :=
| WireWriteHeader (code : Z)
| WireWrite (data : bytes).

(** A response writer that keeps every call it receives, in order, and its
    header map; [Write] reports all the bytes written. *)
Record Wire := { calls : list WireCall; headers : Apt.Header }.

#[global] Instance wire_response_writer : ResponseWriter Wire := {|
  Header w := headers w;
  SetHeader k vs w := {| calls := calls w; headers := <[k := vs]> (headers w) |};
  Write data w :=
    ({| calls := calls w ++ [WireWrite data]; headers := headers w |},
     (Z.of_nat (length data), None));
  WriteHeader code w :=
    {| calls := calls w ++ [WireWriteHeader code]; headers := headers w |};
|}.

Definition newWire : Wire := {| calls := []; headers := ∅ |}.

(** [httptest.ResponseRecorder], the writer of the repository's tests: the
    first [WriteHeader] fixes [Code], a [Write] before it implies 200. *)
Record ResponseRecorder := {
  Code : Z;
  HeaderMap : Apt.Header;
  Body : bytes;
  wroteHeader : bool;
}.

Definition NewRecorder : ResponseRecorder :=
  {| Code := 200; HeaderMap := ∅; Body := []; wroteHeader := false |}.

Definition recorderWriteHeader (code : Z) (w : ResponseRecorder) : ResponseRecorder :=
  if wroteHeader w then w
  else {| Code := code; HeaderMap := HeaderMap w; Body := Body w; wroteHeader := true |}.

#[global] Instance recorder_response_writer : ResponseWriter ResponseRecorder := {|
  Header w := HeaderMap w;
  SetHeader k vs w :=
    {| Code := Code w; HeaderMap := <[k := vs]> (HeaderMap w); Body := Body w;
       wroteHeader := wroteHeader w |};
  Write data w :=
    let w := recorderWriteHeader 200 w in
    ({| Code := Code w; HeaderMap := HeaderMap w; Body := Body w ++ data;
        wroteHeader := wroteHeader w |},
     (Z.of_nat (length data), None));
  WriteHeader := recorderWriteHeader;
|}.

(** An incoming [*http.Request], with what the router resolved for it
    ([mux.Vars] and the template of [mux.CurrentRoute]). *)
Record Request := {
  Method : string;
  RawURL : string;
  ReqHeader : Apt.Header;
  Referer : string;
  ReqBody : Io.Reader;
  Ctx : Apt.Context;
  Vars : gmap string string;
  PathTemplate : string;
}.

Definition WithContext (ctx : Apt.Context) (r : Request) : Request :=
  {| Method := Method r; RawURL := RawURL r; ReqHeader := ReqHeader r;
     Referer := Referer r; ReqBody := ReqBody r; Ctx := ctx;
     Vars := Vars r; PathTemplate := PathTemplate r |}.

Definition WithBody (body : Io.Reader) (r : Request) : Request :=
  {| Method := Method r; RawURL := RawURL r; ReqHeader := ReqHeader r;
     Referer := Referer r; ReqBody := body; Ctx := Ctx r;
     Vars := Vars r; PathTemplate := PathTemplate r |}.

Definition requestLine (r : Request) : Apt.RequestLine :=
  {| Apt.rlMethod := Method r; Apt.rlRawURL := RawURL r;
     Apt.rlHeaders := ReqHeader r; Apt.rlReferer := Referer r |}.

(** How a handler call ends. *)
Inductive Outcome :=
| Returns
| Panics (v : Apt.any).

(** What a handler does with the writer and the request it is given, in
    order: the calls it makes, then how it ends. Errors are reported with
    [ReportError(r.Context(), err)] on the request the handler is given. *)
Inductive HandlerOp :=
| DoHeaderSet (k v : string)
| DoHeaderAdd (k v : string)
| DoWriteHeader (code : Z)
| DoWrite (data : bytes)
| DoReportError (e : Apt.error).

Record Run := { ops : list HandlerOp; outcome : Outcome }.

(** The explicit status-set call. *)
Definition setsStatus (op : HandlerOp) : bool :=
  match op with DoWriteHeader _ => true | _ => false end.

(** An [http.Handler]: its calls may depend on the request it receives, the
    body reader and the context included. *)
Definition Handler := Request → Run.

(** ** What a handler's calls amount to *)

(** The byte slices of the [Write] calls, in order. *)
Definition writesOf (ops : list HandlerOp) : list bytes :=
  omap (λ op, match op with DoWrite data => Some data | _ => None end) ops.

(** All the bytes written, in order. *)
Definition written (ops : list HandlerOp) : bytes := concat (writesOf ops).

(** The errors of the [ReportError] calls, in order. *)
Definition reported (ops : list HandlerOp) : list Apt.error :=
  omap (λ op, match op with DoReportError e => Some e | _ => None end) ops.

(** The status the first status-fixing call gives: the code of an explicit
    [WriteHeader], or the 200 a [Write] implies; [None] if the handler makes
    neither call. *)
Fixpoint firstStatus (ops : list HandlerOp) : option Z :=
  match ops with
  | [] => None
  | DoWriteHeader code :: _ => Some code
  | DoWrite _ :: _ => Some StatusOK
  | _ :: ops' => firstStatus ops'
  end.

(** The status line the real response channel is sent: one [WriteHeader]
    call with the first status, none if the handler fixes no status. *)
Definition statusLine (ops : list HandlerOp) : list WireCall :=
  match firstStatus ops with
  | Some code => [WireWriteHeader code]
  | None => []
  end.

(** The call sets or adds to the header [k]. *)
Definition touchesHeader (k : string) (op : HandlerOp) : bool :=
  match op with
  | DoHeaderSet k' _ | DoHeaderAdd k' _ => bool_decide (k' = k)
  | _ => false
  end.

(** The handler's calls made on a response writer directly, with nothing
    wrapped around it. *)
Definition serveOp {W : Type} `{!ResponseWriter W} (w : W) (op : HandlerOp) : W :=
  match op with
  | DoHeaderSet k v => SetHeader k [v] w
  | DoHeaderAdd k v => SetHeader k (default [] (Header w !! k) ++ [v]) w
  | DoWriteHeader code => WriteHeader code w
  | DoWrite data => (Write data w).1
  | DoReportError _ => w
  end.

Definition serve {W : Type} `{!ResponseWriter W} (ops : list HandlerOp) (w : W) : W :=
  fold_left serveOp ops w.

End Http.

(* ===================================================================== *)
(** * gorilla/gorilla.go *)
(* ===================================================================== *)

Module Gorilla.

Record Config := {
  Debug : bool;
  ServiceVersion : string;
  ServiceName : string;
  RedactHeaders : list string;
  RedactRequestBody : list string;
  RedactResponseBody : list string;
  Tags : list string;
  CaptureRequestBody : bool;
  CaptureResponseBody : bool;
}.

Section Recorder.
Context {W : Type} `{!Http.ResponseWriter W}.

(** [responseRecorder]: the wrapped writer and the recorder's bookkeeping. *)
Record responseRecorder := {
  ResponseWriter : W;
  body : bytes;
  statusCode : Z;
  status : bool;
  captureBody : bool;
}.

Definition WriteHeader (code : Z) (r : responseRecorder) : responseRecorder :=
  if negb (status r) then
    {| ResponseWriter := Http.WriteHeader code (ResponseWriter r);
       body := body r;
       statusCode := code;
       status := true;
       captureBody := captureBody r |}
  else r.

Definition Write (data : bytes) (r : responseRecorder)
  : responseRecorder * (Z * option Apt.error) :=
  let r := if captureBody r then
             {| ResponseWriter := ResponseWriter r; body := body r ++ data;
                statusCode := statusCode r; status := status r;
                captureBody := captureBody r |}
           else r in
  let r := if negb (status r) then WriteHeader Http.StatusOK r else r in
  let '(w, result) := Http.Write data (ResponseWriter r) in
  ({| ResponseWriter := w; body := body r; statusCode := statusCode r;
      status := status r; captureBody := captureBody r |}, result).

Definition StatusCode (r : responseRecorder) : Z :=
  if bool_decide (statusCode r = 0%Z) then Http.StatusOK else statusCode r.

(** The invariant of a call that sets no status explicitly: either nothing
    was recorded yet, or the implied 200 was. *)
Definition unsetOrOK (r : responseRecorder) : Prop :=
  (status r = false ∧ statusCode r = 0%Z)
  ∨ (status r = true ∧ statusCode r = Http.StatusOK).

(** The promoted method [Header()] of the embedded writer, written to. *)
Definition setHeader (k : string) (vs : list string) (r : responseRecorder)
  : responseRecorder :=
  {| ResponseWriter := Http.SetHeader k vs (ResponseWriter r); body := body r;
     statusCode := statusCode r; status := status r;
     captureBody := captureBody r |}.

(** The recorder of line 68: [&responseRecorder{ResponseWriter: res,
    body: &bytes.Buffer{}, captureBody: ...}], the other fields zero. *)
Definition newRecorder (res : W) (capture : bool) : responseRecorder :=
  {| ResponseWriter := res; body := []; statusCode := 0; status := false;
     captureBody := capture |}.

(** The state a handler call works on: the recorder it writes to and the
    request's error list, reached through the request's context. *)
Definition execOp (ctx : Apt.Context) (st : responseRecorder * list Apt.ATError)
    (op : Http.HandlerOp) : responseRecorder * list Apt.ATError :=
  let '(rec, errorList) := st in
  match op with
  | Http.DoHeaderSet k v => (setHeader k [v] rec, errorList)
  | Http.DoHeaderAdd k v =>
      (setHeader k (default [] (Http.Header (ResponseWriter rec) !! k) ++ [v]) rec,
       errorList)
  | Http.DoWriteHeader code => (WriteHeader code rec, errorList)
  | Http.DoWrite data => ((Write data rec).1, errorList)
  | Http.DoReportError e => (rec, Apt.ReportError ctx e errorList)
  end.

(** [next.ServeHTTP(rec, req)]: the handler's calls, in order. *)
Definition ServeHTTP (next : Http.Handler) (req : Http.Request)
    (st : responseRecorder * list Apt.ATError)
  : responseRecorder * list Apt.ATError * Http.Outcome :=
  let run := next req in
  (fold_left (execOp (Http.Ctx req)) (Http.ops run) st, Http.outcome run).

(** What one request leaves behind: the real response channel, the span, how
    the call ended, the request the handler was given, and the error list. *)
Record Served := {
  wire : W;
  span : Apt.Span;
  ending : Http.Outcome;
  handled : Http.Request;
  errors : list Apt.ATError;
}.

Definition aptConfigOf (config : Config) : Apt.Config :=
  {| Apt.ServiceName := ServiceName config;
     Apt.ServiceVersion := ServiceVersion config;
     Apt.Tags := Tags config;
     Apt.Debug := Debug config;
     Apt.CaptureRequestBody := CaptureRequestBody config;
     Apt.CaptureResponseBody := CaptureResponseBody config;
     Apt.RedactHeaders := RedactHeaders config;
     Apt.RedactRequestBody := RedactRequestBody config;
     Apt.RedactResponseBody := RedactResponseBody config |}.

(** [config] with the flag [CaptureRequestBody] set to [flag]. *)
Definition withCaptureRequestBody (flag : bool) (config : Config) : Config :=
  {| Debug := Debug config; ServiceVersion := ServiceVersion config;
     ServiceName := ServiceName config; RedactHeaders := RedactHeaders config;
     RedactRequestBody := RedactRequestBody config;
     RedactResponseBody := RedactResponseBody config; Tags := Tags config;
     CaptureRequestBody := flag;
     CaptureResponseBody := CaptureResponseBody config |}.

(** The request as the handler receives it and the bytes captured from its
    body, with the error list after the read (lines 57 to 66). *)
Definition captureRequest (config : Config) (newCtx : Apt.Context)
    (req : Http.Request) (errorList : list Apt.ATError)
  : bytes * Http.Request * list Apt.ATError :=
  if CaptureRequestBody config then
    let '(reqBuf, err) := Io.ReadAll (Http.ReqBody req) in
    let errorList :=
      match err with
      | Some e => Apt.ReportError newCtx e errorList
      | None => errorList
      end in
    (reqBuf, Http.WithBody (Io.NewBuffer reqBuf) req, errorList)
  else ([], req, errorList).

(** The error list when the handler is entered: the error of a failed read
    of the request body, if capture is on. *)
Definition readErrors (config : Config) (req : Http.Request) : list Apt.ATError :=
  if CaptureRequestBody config then
    match Io.failure (Http.ReqBody req) with
    | Some e => [Apt.toATError e]
    | None => []
    end
  else [].

(** [Middleware(config)(next)] serving one request: [msgID] is the value of
    [uuid.New()], [res] the real response writer. The deferred [span.End()]
    runs on both ways out. *)
Definition Middleware (config : Config) (next : Http.Handler) (msgID : N)
    (res : W) (req : Http.Request) : Served :=
  let span := Apt.StartSpan "monoscope.http" in
  let newCtx := Apt.WithMessageID (Http.Ctx req) msgID in
  let errorList : list Apt.ATError := [] in
  let newCtx := Apt.WithErrorList newCtx in
  let req := Http.WithContext newCtx req in
  let '(reqBuf, req, errorList) := captureRequest config newCtx req errorList in
  let rec := newRecorder res (CaptureResponseBody config) in
  let '(rec, errorList, outcome) := ServeHTTP next req (rec, errorList) in
  match outcome with
  | Http.Panics v =>
      {| wire := ResponseWriter rec; span := Apt.End span;
         ending := Http.Panics v; handled := req; errors := errorList |}
  | Http.Returns =>
      let resBody := if CaptureResponseBody config then body rec else [] in
      let statusCode := StatusCode rec in
      let pathTmpl := Http.PathTemplate req in
      let vars := Http.Vars req in
      let aptConfig := aptConfigOf config in
      let payload :=
        Apt.buildPayload Apt.GoGorillaMux (Http.requestLine req) statusCode
          reqBuf resBody (Http.Header (ResponseWriter rec)) vars pathTmpl
          (RedactHeaders config) (RedactRequestBody config)
          (RedactResponseBody config) errorList msgID None
          (Http.Referer req) aptConfig in
      let span := Apt.CreateSpan payload aptConfig span in
      {| wire := ResponseWriter rec; span := Apt.End span;
         ending := Http.Returns; handled := req; errors := errorList |}
  end.

End Recorder.

Arguments responseRecorder W : clear implicits.
Arguments Served W : clear implicits.

End Gorilla.

(* ===================================================================== *)
(** * fiber/fiber.go *)
(* ===================================================================== *)

Module Fiber.

Record Config := {
  Debug : bool;
  ServiceVersion : string;
  ServiceName : string;
  RedactHeaders : list string;
  RedactRequestBody : list string;
  RedactResponseBody : list string;
  Tags : list string;
  CaptureRequestBody : bool;
  CaptureResponseBody : bool;
}.

Definition getAptConfig (config : Config) : Apt.Config :=
  {| Apt.ServiceName := ServiceName config;
     Apt.ServiceVersion := ServiceVersion config;
     Apt.Tags := Tags config;
     Apt.Debug := Debug config;
     Apt.CaptureRequestBody := CaptureRequestBody config;
     Apt.CaptureResponseBody := CaptureResponseBody config;
     Apt.RedactHeaders := RedactHeaders config;
     Apt.RedactRequestBody := RedactRequestBody config;
     Apt.RedactResponseBody := RedactResponseBody config |}.

(** A [*fiber.Ctx], by what the middleware reads and writes: the request and
    response of the underlying fasthttp context, the matched route and the
    user context. *)
Record Ctx := {
  Method : string;
  OriginalURL : string;
  ReqHeaders : Apt.Header;
  Referer : string;
  RequestBody : bytes;
  ResponseBody : bytes;
  ResponseStatus : Z;
  RespHeaders : Apt.Header;
  AllParams : gmap string string;
  RoutePath : string;
  UserContext : Apt.Context;
}.

Definition SetUserContext (uc : Apt.Context) (c : Ctx) : Ctx :=
  {| Method := Method c; OriginalURL := OriginalURL c; ReqHeaders := ReqHeaders c;
     Referer := Referer c; RequestBody := RequestBody c;
     ResponseBody := ResponseBody c; ResponseStatus := ResponseStatus c;
     RespHeaders := RespHeaders c; AllParams := AllParams c;
     RoutePath := RoutePath c; UserContext := uc |}.

(** [ctx.Status(code)]. *)
Definition Status (code : Z) (c : Ctx) : Ctx :=
  {| Method := Method c; OriginalURL := OriginalURL c; ReqHeaders := ReqHeaders c;
     Referer := Referer c; RequestBody := RequestBody c;
     ResponseBody := ResponseBody c; ResponseStatus := code;
     RespHeaders := RespHeaders c; AllParams := AllParams c;
     RoutePath := RoutePath c; UserContext := UserContext c |}.

(** [ctx.Send(data)]: sets the response body. *)
Definition Send (data : bytes) (c : Ctx) : Ctx :=
  {| Method := Method c; OriginalURL := OriginalURL c; ReqHeaders := ReqHeaders c;
     Referer := Referer c; RequestBody := RequestBody c;
     ResponseBody := data; ResponseStatus := ResponseStatus c;
     RespHeaders := RespHeaders c; AllParams := AllParams c;
     RoutePath := RoutePath c; UserContext := UserContext c |}.

(** [ctx.Write(data)]: appends to the response body. *)
Definition Write (data : bytes) (c : Ctx) : Ctx :=
  Send (ResponseBody c ++ data) c.

(** [ctx.Set(k, v)]: sets a response header. *)
Definition Set_ (k v : string) (c : Ctx) : Ctx :=
  {| Method := Method c; OriginalURL := OriginalURL c; ReqHeaders := ReqHeaders c;
     Referer := Referer c; RequestBody := RequestBody c;
     ResponseBody := ResponseBody c; ResponseStatus := ResponseStatus c;
     RespHeaders := <[k := [v]]> (RespHeaders c); AllParams := AllParams c;
     RoutePath := RoutePath c; UserContext := UserContext c |}.

(** [ctx.GetRespHeaders()]. *)
Definition GetRespHeaders (c : Ctx) : Apt.Header := RespHeaders c.

Definition requestLine (c : Ctx) : Apt.RequestLine :=
  {| Apt.rlMethod := Method c; Apt.rlRawURL := OriginalURL c;
     Apt.rlHeaders := ReqHeaders c; Apt.rlReferer := Referer c |}.

(** How [ctx.Next()] ends: it returns the handler's error, or panics. *)
Inductive Outcome :=
| Returns (err : option Apt.error)
| Panics (v : Apt.any).

(** What the downstream handler does with the context, in order. Errors are
    reported with [ReportError(ctx.UserContext(), err)]; the handler derives
    the contexts it uses from the user context it is given and leaves that
    one in place. *)
Inductive HandlerOp :=
| DoStatus (code : Z)
| DoSend (data : bytes)
| DoWrite (data : bytes)
| DoSet (k v : string)
| DoReportError (e : Apt.error).

Record Run := { ops : list HandlerOp; outcome : Outcome }.

(** A [fiber.Handler] downstream of the middleware: its calls may depend on
    the context it receives. *)
Definition Handler := Ctx → Run.

Definition execOp (st : Ctx * list Apt.ATError) (op : HandlerOp)
  : Ctx * list Apt.ATError :=
  let '(c, errorList) := st in
  match op with
  | DoStatus code => (Status code c, errorList)
  | DoSend data => (Send data c, errorList)
  | DoWrite data => (Write data c, errorList)
  | DoSet k v => (Set_ k v c, errorList)
  | DoReportError e => (c, Apt.ReportError (UserContext c) e errorList)
  end.

(** The errors of the handler's [ReportError] calls, in order. *)
Definition reported (ops : list HandlerOp) : list Apt.error :=
  omap (λ op, match op with DoReportError e => Some e | _ => None end) ops.

(** The status the response has after the handler's calls, from the status
    [init] it had before: the code of the last [Status] call. *)
Definition lastStatus (init : Z) (ops : list HandlerOp) : Z :=
  fold_left (λ code op, match op with DoStatus code' => code' | _ => code end) ops init.

(** [ctx.Next()]. *)
Definition Next (next : Handler) (st : Ctx * list Apt.ATError)
  : Ctx * list Apt.ATError * Outcome :=
  let run := next st.1 in
  (fold_left execOp (ops run) st, outcome run).

(** The loop of lines 57 to 60: a fresh map filled from the headers. *)
Definition copyHeaders (h : Apt.Header) : Apt.Header :=
  map_fold (λ k v (respHeaders : Apt.Header), <[k := v]> respHeaders) ∅ h.

Record Served := {
  ctx : Ctx;
  span : Apt.Span;
  ending : Outcome;
  errors : list Apt.ATError;
}.

(** The payload of lines 68 to 78 and 85 to 95, the status apart. *)
Definition payloadOf (config : Config) (c : Ctx) (statusCode : Z)
    (respHeaders : Apt.Header) (errorList : list Apt.ATError) (msgID : N)
  : Apt.Payload :=
  Apt.buildPayload Apt.GoFiberSDKType (requestLine c) statusCode
    (RequestBody c) (ResponseBody c) respHeaders (AllParams c) (RoutePath c)
    (RedactHeaders config) (RedactRequestBody config) (RedactResponseBody config)
    errorList msgID None (Referer c) (getAptConfig config).

(** The deferred function of lines 62 to 82, entered with the value [v] that
    [recover()] returned. *)
Definition recovered (config : Config) (v : Apt.any) (c : Ctx)
    (respHeaders : Apt.Header) (errorList : list Apt.ATError) (msgID : N)
    (span : Apt.Span) : Served :=
  let converted : option Apt.any :=
    match Apt.asError v with
    | Some _ => Some v
    | None =>
        match Apt.asString v with
        | Some s => Some (Apt.AnyError (Apt.errors_New s))
        | None => None
        end
    end in
  match converted with
  | None =>
      (* [err.(string)] fails: a new panic leaves the deferred function *)
      {| ctx := c; span := Apt.End span;
         ending := Panics (Apt.AnyError (Apt.typeAssertionError v));
         errors := errorList |}
  | Some err =>
      let errorList :=
        match Apt.asError err with
        | Some e => Apt.ReportError (UserContext c) e errorList
        | None => errorList
        end in
      let payload :=
        payloadOf config c 500 respHeaders errorList msgID in
      let span := Apt.CreateSpan payload (getAptConfig config) span in
      {| ctx := c; span := Apt.End span; ending := Panics err;
         errors := errorList |}
  end.

(** Lines 44 to 55: the context the handler chain is entered with carries the
    pointer to the error list and the message id in its user context. *)
Definition entering (msgID : N) (c : Ctx) : Ctx :=
  let baseCtx := UserContext c in
  let newCtx := baseCtx in
  let newCtx := Apt.WithErrorList newCtx in
  let newCtx := Apt.WithMessageID newCtx msgID in
  SetUserContext newCtx c.

(** [Middleware(config)] serving one request: [msgID] is the value of
    [uuid.New()], [next] the rest of the handler chain. The deferred
    [span.End()] runs on every way out. *)
Definition Middleware (config : Config) (next : Handler) (msgID : N) (c : Ctx)
  : Served :=
  let span := Apt.StartSpan "monoscope.http" in
  let errorList : list Apt.ATError := [] in
  let c := entering msgID c in
  let respHeaders := copyHeaders (GetRespHeaders c) in
  let '(c, errorList, outcome) := Next next (c, errorList) in
  match outcome with
  | Panics v => recovered config v c respHeaders errorList msgID span
  | Returns err =>
      let payload :=
        payloadOf config c (ResponseStatus c) respHeaders errorList msgID in
      let span := Apt.CreateSpan payload (getAptConfig config) span in
      {| ctx := c; span := Apt.End span; ending := Returns err;
         errors := errorList |}
  end.

End Fiber.

(* ===================================================================== *)
(** * Concrete requests and handlers *)
(* ===================================================================== *)

Module Scenarios.

Definition gorillaConfig : Gorilla.Config :=
  {| Gorilla.Debug := false; Gorilla.ServiceVersion := "0.0.1";
     Gorilla.ServiceName := "test-service"; Gorilla.RedactHeaders := [];
     Gorilla.RedactRequestBody := []; Gorilla.RedactResponseBody := [];
     Gorilla.Tags := []; Gorilla.CaptureRequestBody := true;
     Gorilla.CaptureResponseBody := true |}.

Definition gorillaNoCapture : Gorilla.Config :=
  {| Gorilla.Debug := false; Gorilla.ServiceVersion := "0.0.1";
     Gorilla.ServiceName := "test-service"; Gorilla.RedactHeaders := [];
     Gorilla.RedactRequestBody := []; Gorilla.RedactResponseBody := [];
     Gorilla.Tags := []; Gorilla.CaptureRequestBody := false;
     Gorilla.CaptureResponseBody := false |}.

(** [httptest.NewRequest(method, "/test", bytes.NewBufferString(body))]. *)
Definition testRequest (method : string) (body : Io.Reader) : Http.Request :=
  {| Http.Method := method; Http.RawURL := "/test"; Http.ReqHeader := ∅;
     Http.Referer := ""; Http.ReqBody := body; Http.Ctx := Apt.Background;
     Http.Vars := ∅; Http.PathTemplate := "/test" |}.

Definition unexpectedEOF : Apt.error := Apt.errors_New "unexpected EOF".

(** A request whose body delivers two bytes and then fails. *)
Definition brokenRequest : Http.Request :=
  testRequest "POST" {| Io.pending := b "ab"; Io.failure := Some unexpectedEOF |}.

(** The test "handler with no explicit status code". *)
Definition noStatusHandler : Http.Handler :=
  λ _, {| Http.ops := [Http.DoWrite (b "No status set")];
          Http.outcome := Http.Returns |}.

(** The test "handler with empty response". *)
Definition emptyHandler : Http.Handler :=
  λ _, {| Http.ops := []; Http.outcome := Http.Returns |}.

(** The test "request with body capture": the handler reads the body, sets
    201 and writes. *)
Definition createdHandler : Http.Handler :=
  λ _, {| Http.ops := [Http.DoWriteHeader Http.StatusCreated;
                       Http.DoWrite (b "created")];
          Http.outcome := Http.Returns |}.

(** The test "basic request with 200 response": a header, the status, the
    body. *)
Definition basicHandler : Http.Handler :=
  λ _, {| Http.ops := [Http.DoHeaderSet "X-Test" "value";
                       Http.DoWriteHeader Http.StatusOK;
                       Http.DoWrite (b "OK")];
          Http.outcome := Http.Returns |}.

(** A handler that sets the status twice. *)
Definition twoStatusHandler : Http.Handler :=
  λ _, {| Http.ops := [Http.DoWriteHeader 201; Http.DoWriteHeader 404];
          Http.outcome := Http.Returns |}.

(** A handler that echoes the request body it reads. *)
Definition echoHandler : Http.Handler :=
  λ r, {| Http.ops := [Http.DoWrite (Io.ReadAll (Http.ReqBody r)).1];
          Http.outcome := Http.Returns |}.

(** A handler that writes part of a response and then panics. *)
Definition panickingHandler : Http.Handler :=
  λ _, {| Http.ops := [Http.DoHeaderSet "X-Before-Panic" "yes";
                       Http.DoWriteHeader Http.StatusOK;
                       Http.DoWrite (b "Before")];
          Http.outcome := Http.Panics (Apt.AnyString "boom") |}.

Definition fiberConfig : Fiber.Config :=
  {| Fiber.Debug := false; Fiber.ServiceVersion := "0.0.1";
     Fiber.ServiceName := "test-service"; Fiber.RedactHeaders := [];
     Fiber.RedactRequestBody := []; Fiber.RedactResponseBody := [];
     Fiber.Tags := []; Fiber.CaptureRequestBody := true;
     Fiber.CaptureResponseBody := true |}.

(** A fresh fiber context for [GET /test], with the response headers set
    before the middleware runs. *)
Definition fiberCtx (respHeaders : Apt.Header) : Fiber.Ctx :=
  {| Fiber.Method := "GET"; Fiber.OriginalURL := "/test"; Fiber.ReqHeaders := ∅;
     Fiber.Referer := ""; Fiber.RequestBody := []; Fiber.ResponseBody := [];
     Fiber.ResponseStatus := 200; Fiber.RespHeaders := respHeaders;
     Fiber.AllParams := ∅; Fiber.RoutePath := "/test";
     Fiber.UserContext := Apt.Background |}.

(** [c.Status(404)], a partial body, one reported error, then
    [panic("boom")]. *)
Definition fiberPanicString : Fiber.Handler :=
  λ _, {| Fiber.ops := [Fiber.DoStatus 404; Fiber.DoSend (b "partial");
                        Fiber.DoReportError (Apt.errors_New "earlier")];
          Fiber.outcome := Fiber.Panics (Apt.AnyString "boom") |}.

(** [panic(errors.New("boom"))]. *)
Definition fiberPanicError : Fiber.Handler :=
  λ _, {| Fiber.ops := [Fiber.DoStatus 404];
          Fiber.outcome := Fiber.Panics (Apt.AnyError (Apt.errors_New "boom")) |}.

(** [panic(42)]. *)
Definition fiberPanicInt : Fiber.Handler :=
  λ _, {| Fiber.ops := [];
          Fiber.outcome := Fiber.Panics (Apt.AnyOther "int" "42") |}.

(** A handler that sets a header an earlier middleware has set already. *)
Definition fiberSetsHeader : Fiber.Handler :=
  λ _, {| Fiber.ops := [Fiber.DoSet "X-Powered-By" "fiber"; Fiber.DoSet "X-Test" "value"];
          Fiber.outcome := Fiber.Returns None |}.

Definition poweredBy : Apt.Header := {[ "X-Powered-By" := ["fiber"] ]}.

(** The double quote, for bodies written as text. *)
Definition q : string := String (ascii_of_nat 34) EmptyString.

(** The request body of the redaction scenario of the specification:
    an object with the fields [password] and [username]. *)
Definition loginBody : bytes :=
  b ("{" +:+ q +:+ "password" +:+ q +:+ ":" +:+ q +:+ "secret123" +:+ q +:+ ","
     +:+ q +:+ "username" +:+ q +:+ ":" +:+ q +:+ "john" +:+ q +:+ "}").

Definition loginBodyRedacted : bytes :=
  b ("{" +:+ q +:+ "password" +:+ q +:+ ":" +:+ q +:+ "[CLIENT_REDACTED]" +:+ q +:+ ","
     +:+ q +:+ "username" +:+ q +:+ ":" +:+ q +:+ "john" +:+ q +:+ "}").

End Scenarios.

(* ===================================================================== *)
(** * The text form reads back *)
(* ===================================================================== *)

Import Json.

(** Induction on values that reaches the items of arrays and the fields of
    objects. *)
Lemma json_induction (P : value → Prop) :
  P Null → (∀ t, P (Bool t)) → (∀ z, P (Num z)) → (∀ s, P (Str s)) →
  (∀ vs, Forall P vs → P (Arr vs)) →
  (∀ fs, Forall (λ kv, P kv.2) fs → P (Obj fs)) →
  ∀ v, P v.
Proof.
  intros HN HB HZ HS HA HO. fix IH 1.
  intros [|t|z|s|vs|fs]; [exact HN|apply HB|apply HZ|apply HS|..].
  - apply HA. induction vs as [|v vs IHvs]; constructor; [apply IH|apply IHvs].
  - apply HO. induction fs as [|[k v] fs IHfs]; constructor; [apply IH|apply IHfs].
Qed.

Lemma parseUint_render u : ∀ rest,
  endsNumber rest → parseUint (renderUint u ++ rest) = (u, rest).
Proof.
  induction u; intros rest Hr; cbn [renderUint app parseUint digitOf];
    try (rewrite IHu by done; reflexivity).
  destruct rest as [|c rest]; [done|]. cbn in *. by rewrite Hr.
Qed.

Lemma renderUint_nonnil u :
  u ≠ Decimal.Nil → ∃ c tl, renderUint u = c :: tl ∧ isDigit c = true.
Proof. destruct u; [done|..]; intros _; cbn; eauto. Qed.

Lemma to_int_nonnil z :
  match Z.to_int z with Decimal.Pos u | Decimal.Neg u => u ≠ Decimal.Nil end.
Proof. destruct z; cbn; [done|apply DecimalPos.Unsigned.to_uint_nonnil..]. Qed.

Lemma parseInt_render z rest :
  endsNumber rest → parseInt (renderInt z ++ rest) = Some (z, rest).
Proof.
  intros Hr. unfold renderInt. rewrite <- (DecimalZ.of_to z) at 2.
  pose proof (to_int_nonnil z) as Hnn.
  destruct (Z.to_int z) as [u|u].
  - destruct (renderUint_nonnil u Hnn) as (c & tl & E & Hc).
    pose proof (parseUint_render u rest Hr) as Hp.
    rewrite E in *. cbn [app] in *. unfold parseInt.
    destruct c; try discriminate Hc; rewrite Hp; by destruct u.
  - cbn [app]. unfold parseInt. rewrite parseUint_render by done. by destruct u.
Qed.

Lemma parseStringBody_escape s : ∀ rest,
  parseStringBody (escape s ++ [x22] ++ rest) = Some (s, rest).
Proof.
  induction s as [|c s IH]; intros rest; [done|].
  cbn [escape]. rewrite <- app_assoc.
  destruct c; cbn; cbn in IH; rewrite IH; reflexivity.
Qed.

Lemma render_starts v : ∃ c tl, render v = c :: tl ∧ startsValue c = true.
Proof.
  destruct v as [|[]|z|s|vs|fs]; cbn; eauto.
  unfold renderInt. pose proof (to_int_nonnil z) as Hnn.
  destruct (Z.to_int z) as [u|u]; [|eauto].
  destruct (renderUint_nonnil u Hnn) as (c & tl & E & Hc).
  exists c, tl. split; [done|]. destruct c; try discriminate Hc; reflexivity.
Qed.

Lemma skipWs_starts c tl : startsValue c = true → skipWs (c :: tl) = c :: tl.
Proof. destruct c; try discriminate; reflexivity. Qed.

Lemma parseValue_number fuel c tl :
  (isDigit c = true ∨ c = x2d) →
  parseValue (S fuel) (c :: tl)
  = match parseInt (c :: tl) with
    | Some (z, rest) => Some (Num z, rest)
    | None => None
    end.
Proof. intros [Hc| ->]; [destruct c; try discriminate Hc|]; reflexivity. Qed.

Lemma parseItems_render vs : ∀ v fuel rest,
  Forall parsesBack (v :: vs) →
  list_sum ((λ v, S (size v)) <$> (v :: vs)) ≤ fuel →
  parseItems fuel (renderItems render (v :: vs) ++ x5d :: rest) = Some (v :: vs, rest).
Proof.
  induction vs as [|w vs IH]; intros v fuel rest Hall Hfuel;
    inversion Hall as [|? ? Hv Hvs]; subst; unfold parsesBack in Hv;
    destruct fuel as [|fuel]; cbn in Hfuel; try lia.
  - cbn [renderItems parseItems]. rewrite Hv by (done || lia). reflexivity.
  - change (renderItems render (v :: w :: vs))
      with (render v ++ x2c :: renderItems render (w :: vs)).
    rewrite <- app_assoc. cbn [parseItems]. rewrite Hv by (done || lia).
    cbn [app skipWs isWs]. rewrite IH; [done|done|cbn; lia].
Qed.

Lemma parseFields_render fs : ∀ k v fuel rest,
  Forall (λ kv, parsesBack kv.2) ((k, v) :: fs) →
  list_sum ((λ kv, S (size kv.2)) <$> ((k, v) :: fs)) ≤ fuel →
  parseFields fuel (renderFields render ((k, v) :: fs) ++ x7d :: rest)
  = Some ((k, v) :: fs, rest).
Proof.
  induction fs as [|[k' w] fs IH]; intros k v fuel rest Hall Hfuel;
    inversion Hall as [|? ? Hv Hvs]; subst; unfold parsesBack in Hv;
    cbn [snd] in Hv; destruct fuel as [|fuel]; cbn in Hfuel; try lia.
  - cbn [renderFields parseFields]. unfold renderString.
    cbn [app skipWs isWs]. rewrite <- !app_assoc. rewrite parseStringBody_escape.
    cbn [app skipWs isWs]. rewrite Hv by (done || lia). reflexivity.
  - change (renderFields render ((k, v) :: (k', w) :: fs))
      with (renderString k ++ x3a :: render v ++ x2c :: renderFields render ((k', w) :: fs)).
    unfold renderString at 1. cbn [parseFields app skipWs isWs].
    rewrite <- !app_assoc. rewrite parseStringBody_escape.
    cbn [app skipWs isWs]. rewrite <- app_assoc. rewrite Hv by (done || lia).
    cbn [app skipWs isWs]. rewrite IH; [done|done|cbn; lia].
Qed.

Lemma parseValue_render v : parsesBack v.
Proof.
  induction v as [|t|z|s|vs IH|fs IH] using json_induction;
    intros [|fuel] rest Hfuel Hrest; cbn in Hfuel; try lia.
  - reflexivity.
  - destruct t; reflexivity.
  - cbn [render].
    destruct (render_starts (Num z)) as (c & tl & E & Hc). cbn [render] in E.
    rewrite E. cbn [app].
    rewrite parseValue_number.
    + change (c :: tl ++ rest) with ((c :: tl) ++ rest). rewrite <- E.
      by rewrite parseInt_render.
    + unfold renderInt in E. destruct (Z.to_int z) as [u|u].
      * left. destruct u; cbn in E; try done; by injection E as <- _.
      * right. by injection E as <- _.
  - cbn [render]. unfold renderString. cbn [app parseValue skipWs isWs].
    rewrite <- app_assoc. by rewrite parseStringBody_escape.
  - destruct vs as [|v vs]; [reflexivity|].
    cbn [render app parseValue skipWs isWs]. rewrite <- app_assoc. cbn [app].
    destruct (render_starts v) as (c & tl & E & Hc).
    assert (Hhd : ∃ tl', renderItems render (v :: vs) ++ x5d :: rest = c :: tl').
    { destruct vs; cbn [renderItems]; rewrite E; cbn; eauto. }
    destruct Hhd as [tl' Hhd].
    rewrite parseItems_render; [|done|cbn in Hfuel |- *; lia].
    rewrite Hhd, skipWs_starts by done.
    destruct c; try discriminate Hc; reflexivity.
  - destruct fs as [|[k v] fs]; [reflexivity|].
    cbn [render app parseValue skipWs isWs]. rewrite <- app_assoc. cbn [app].
    assert (Hhd : ∃ tl', renderFields render ((k, v) :: fs) ++ x7d :: rest = x22 :: tl').
    { destruct fs as [|[]]; cbn [renderFields]; unfold renderString; cbn; eauto. }
    destruct Hhd as [tl' Hhd].
    rewrite parseFields_render; [|done|cbn in Hfuel |- *; lia].
    rewrite Hhd. reflexivity.
Qed.

Lemma renderItems_length vs :
  Forall (λ v, size v ≤ length (render v)) vs →
  list_sum ((λ v, S (size v)) <$> vs) ≤ S (length (renderItems render vs)).
Proof.
  induction 1 as [|v vs Hv _ IH]; [cbn; lia|].
  destruct vs as [|w vs].
  - cbn. lia.
  - change (renderItems render (v :: w :: vs))
      with (render v ++ x2c :: renderItems render (w :: vs)).
    rewrite length_app. cbn [length fmap list_fmap list_sum foldr] in *. lia.
Qed.

Lemma renderFields_length fs :
  Forall (λ kv, size kv.2 ≤ length (render kv.2)) fs →
  list_sum ((λ kv, S (size kv.2)) <$> fs) ≤ S (length (renderFields render fs)).
Proof.
  induction 1 as [|[k v] fs Hv _ IH]; [cbn; lia|].
  destruct fs as [|[k' w] fs].
  - cbn in *. rewrite length_app. cbn. lia.
  - change (renderFields render ((k, v) :: (k', w) :: fs))
      with (renderString k ++ x3a :: render v ++ x2c :: renderFields render ((k', w) :: fs)).
    rewrite length_app. cbn [length]. rewrite length_app.
    cbn [length fmap list_fmap list_sum foldr snd] in *. lia.
Qed.

Lemma size_le_render v : size v ≤ length (render v).
Proof.
  induction v as [|t|z|s|vs IH|fs IH] using json_induction.
  - cbn. lia.
  - destruct t; cbn; lia.
  - destruct (render_starts (Num z)) as (c & tl & -> & _). cbn. lia.
  - cbn. lia.
  - cbn [size render length]. rewrite length_app. cbn [length].
    pose proof (renderItems_length vs IH). lia.
  - cbn [size render length]. rewrite length_app. cbn [length].
    pose proof (renderFields_length fs IH). lia.
Qed.

(** Parsing the text form of a value gives the value back. *)
Lemma parse_render v : parse (render v) = Some v.
Proof.
  unfold parse.
  rewrite <- (app_nil_r (render v)) at 2.
  rewrite parseValue_render; [done| |done].
  pose proof (size_le_render v). lia.
Qed.

(* ===================================================================== *)
(** * Redaction *)
(* ===================================================================== *)

Section Redaction.
Import Apt.
Implicit Types (p q : path) (v : Json.value).

Lemma onFields_lookup sel (f : Json.value → Json.value) fs i :
  onFields sel f fs !! i
  = (λ kv, if sel kv.1 then (kv.1, f kv.2) else kv) <$> fs !! i.
Proof. unfold onFields. apply list_lookup_fmap. Qed.

Lemma onItems_lookup sel (f : Json.value → Json.value) vs i :
  onItems sel f vs !! i = (λ v, if sel i then f v else v) <$> vs !! i.
Proof. unfold onItems. apply list_lookup_imap. Qed.

(** The marker has no children: no path reaches below it. *)
Lemma redactAt_marker p : redactAt p marker = marker.
Proof. by destruct p. Qed.

Lemma redactAt_idem p : ∀ v, redactAt p (redactAt p v) = redactAt p v.
Proof.
  induction p as [|s p IH]; intros v; [done|].
  destruct v as [| | | |vs|fs]; try done; cbn [redactAt]; f_equal.
  - apply list_eq; intros i. rewrite !onItems_lookup.
    destruct (vs !! i) as [v|]; [|done]. cbn.
    destruct (selIndex s i); [|done]. by rewrite IH.
  - apply list_eq; intros i. rewrite !onFields_lookup.
    destruct (fs !! i) as [[k v]|]; [|done]. cbn.
    destruct (selField s k) eqn:E; cbn; rewrite E; [|done]. by rewrite IH.
Qed.

(** A value on which [p] finds nothing left to replace stays so when another
    path is redacted. *)
Lemma redactAt_keeps_stable p : ∀ q v,
  redactAt p v = v → redactAt p (redactAt q v) = redactAt q v.
Proof.
  induction p as [|s p IH]; intros q v Hst.
  - cbn in Hst. subst v. by rewrite redactAt_marker.
  - destruct q as [|t q]; [done|].
    destruct v as [| | | |vs|fs]; try done; cbn [redactAt] in *; f_equal.
    + injection Hst as Hst.
      apply list_eq; intros i. rewrite !onItems_lookup.
      pose proof (f_equal (λ l, l !! i) Hst) as Hi. cbn in Hi.
      rewrite onItems_lookup in Hi.
      destruct (vs !! i) as [v|]; [|done]. cbn in *.
      destruct (selIndex s i); [|done].
      injection Hi as Hi. destruct (selIndex t i); [|by rewrite Hi].
      by rewrite IH.
    + injection Hst as Hst.
      apply list_eq; intros i. rewrite !onFields_lookup.
      pose proof (f_equal (λ l, l !! i) Hst) as Hi. cbn in Hi.
      rewrite onFields_lookup in Hi.
      destruct (fs !! i) as [[k v]|]; [|done]. cbn in *.
      destruct (selField s k) eqn:Es.
      * injection Hi as Hi. destruct (selField t k); cbn; rewrite Es.
        -- by rewrite IH.
        -- by rewrite Hi.
      * destruct (selField t k); cbn; by rewrite Es.
Qed.

Lemma redactValue_keeps_stable p ps : ∀ v,
  redactAt p v = v → redactAt p (redactValue ps v) = redactValue ps v.
Proof.
  unfold redactValue.
  induction ps as [|q ps IH]; intros v Hst; [done|].
  cbn [fold_left]. apply IH. by apply redactAt_keeps_stable.
Qed.

Lemma redactValue_all_stable ps : ∀ v,
  Forall (λ p, redactAt p (redactValue ps v) = redactValue ps v) ps.
Proof.
  induction ps as [|p ps IH]; intros v; constructor.
  - change (redactValue (p :: ps) v) with (redactValue ps (redactAt p v)).
    apply redactValue_keeps_stable, redactAt_idem.
  - apply (IH (redactAt p v)).
Qed.

Lemma redactValue_fixed ps : ∀ v,
  Forall (λ p, redactAt p v = v) ps → redactValue ps v = v.
Proof.
  unfold redactValue.
  induction ps as [|p ps IH]; intros v Hall; [done|].
  inversion Hall as [|? ? Hp Hps]; subst. cbn [fold_left]. rewrite Hp. by apply IH.
Qed.

Lemma redactValue_idem ps v :
  redactValue ps (redactValue ps v) = redactValue ps v.
Proof. apply redactValue_fixed, redactValue_all_stable. Qed.

(** C9. Structured-field redaction is idempotent: for every captured body
    and every list of redaction paths, redacting the redacted body again with
    the same paths gives the same bytes as redacting once. *)
Theorem redact_idempotent (body : bytes) (exprs : list string) :
  redact (redact body exprs) exprs = redact body exprs.
Proof.
  unfold redact at 2 3.
  destruct (Json.parse body) as [v|] eqn:E.
  - unfold redact. rewrite parse_render. f_equal. apply redactValue_idem.
  - unfold redact. by rewrite E.
Qed.

(** The scenario of the specification: [$.password] is replaced by the
    marker, [username] is unchanged. *)
Example redact_login_body :
  redact Scenarios.loginBody ["$.password"] = Scenarios.loginBodyRedacted.
Proof. vm_compute. reflexivity. Qed.

(** A body that is not structured is left untouched. *)
Example redact_unstructured_body :
  redact (b "plain text") ["$.password"] = b "plain text".
Proof. vm_compute. reflexivity. Qed.

End Redaction.

(* ===================================================================== *)
(** * The response recorder of the Gorilla adapter *)
(* ===================================================================== *)

Section RecorderFacts.
Context {W : Type} `{!Http.ResponseWriter W}.
Implicit Types (r : Gorilla.responseRecorder W) (op : Http.HandlerOp).

Lemma WriteHeader_status code r :
  Gorilla.status (Gorilla.WriteHeader code r) = true.
Proof. unfold Gorilla.WriteHeader. destruct (Gorilla.status r) eqn:E; simpl; auto. Qed.

Lemma WriteHeader_set code r :
  Gorilla.status r = true → Gorilla.WriteHeader code r = r.
Proof. unfold Gorilla.WriteHeader. intros ->. reflexivity. Qed.

Lemma Write_statusCode data r :
  Gorilla.status (Gorilla.Write data r).1 = true
  ∧ Gorilla.statusCode (Gorilla.Write data r).1
    = (if Gorilla.status r then Gorilla.statusCode r else Http.StatusOK).
Proof.
  unfold Gorilla.Write, Gorilla.WriteHeader.
  destruct (Gorilla.captureBody r), (Gorilla.status r) eqn:E; simpl;
    rewrite ?E; simpl;
    match goal with |- context [Http.Write ?d ?w] => destruct (Http.Write d w) end;
    simpl; auto.
Qed.

Lemma Write_captureBody data r :
  Gorilla.captureBody (Gorilla.Write data r).1 = Gorilla.captureBody r.
Proof.
  unfold Gorilla.Write, Gorilla.WriteHeader.
  destruct (Gorilla.captureBody r) eqn:C, (Gorilla.status r) eqn:E; simpl;
    rewrite ?E; simpl;
    match goal with |- context [Http.Write ?d ?w] => destruct (Http.Write d w) end;
    simpl; auto.
Qed.

(** With capture off, [Write] leaves the buffer alone and hands the bytes to
    the wrapped writer, after the implied [WriteHeader(200)] if no status was
    set; its result is the wrapped writer's. *)
Lemma Write_forwards data r :
  Gorilla.captureBody r = false →
  let w := if Gorilla.status r then Gorilla.ResponseWriter r
           else Http.WriteHeader Http.StatusOK (Gorilla.ResponseWriter r) in
  Gorilla.body (Gorilla.Write data r).1 = Gorilla.body r
  ∧ Gorilla.ResponseWriter (Gorilla.Write data r).1 = (Http.Write data w).1
  ∧ (Gorilla.Write data r).2 = (Http.Write data w).2.
Proof.
  intros Hc. unfold Gorilla.Write, Gorilla.WriteHeader. rewrite Hc.
  destruct (Gorilla.status r) eqn:E; simpl;
    match goal with |- context [Http.Write ?d ?w] => destruct (Http.Write d w) end;
    simpl; auto.
Qed.

Lemma unsetOrOK_step ctx r el op :
  Http.setsStatus op = false → Gorilla.unsetOrOK r →
  Gorilla.unsetOrOK (Gorilla.execOp ctx (r, el) op).1.
Proof.
  intros Hop Hr. destruct op; simpl in *; try discriminate; auto.
  destruct (Write_statusCode data r) as [Hs Hc]. right. split; [done|].
  rewrite Hc. destruct Hr as [[-> _]|[-> ->]]; reflexivity.
Qed.

Lemma unsetOrOK_run ctx ops : ∀ r el,
  forallb (λ op, negb (Http.setsStatus op)) ops = true → Gorilla.unsetOrOK r →
  Gorilla.unsetOrOK (fold_left (Gorilla.execOp ctx) ops (r, el)).1.
Proof.
  induction ops as [|op ops IH]; intros r el Hops Hr; [done|].
  cbn [forallb] in Hops.
  apply andb_true_iff in Hops as [Hop Hops]. apply negb_true_iff in Hop.
  cbn [fold_left].
  destruct (Gorilla.execOp ctx (r, el) op) as [r' el'] eqn:E.
  apply IH; [done|]. change r' with (r', el').1. rewrite <- E. by apply unsetOrOK_step.
Qed.

(** C4. A handler that makes no explicit status-set call, whether it writes
    body bytes or writes nothing at all, leaves a recorder that reports
    status 200. *)
Theorem status_defaults_to_200 ctx (ops : list Http.HandlerOp) (res : W)
    (capture : bool) (el : list Apt.ATError) :
  forallb (λ op, negb (Http.setsStatus op)) ops = true →
  Gorilla.StatusCode
    (fold_left (Gorilla.execOp ctx) ops (Gorilla.newRecorder res capture, el)).1
  = 200%Z.
Proof.
  intros Hops.
  destruct (unsetOrOK_run ctx ops (Gorilla.newRecorder res capture) el Hops)
    as [[_ Hc]|[_ Hc]]; [by left| |]; unfold Gorilla.StatusCode; rewrite Hc; reflexivity.
Qed.

Lemma status_kept_step ctx r el op :
  Gorilla.status r = true →
  Gorilla.status (Gorilla.execOp ctx (r, el) op).1 = true
  ∧ Gorilla.statusCode (Gorilla.execOp ctx (r, el) op).1 = Gorilla.statusCode r.
Proof.
  intros Hs. destruct op; simpl; auto.
  - by rewrite WriteHeader_set.
  - destruct (Write_statusCode data r) as [H1 H2]. by rewrite H1, H2, Hs.
Qed.

Lemma status_kept_run ctx ops : ∀ r el,
  Gorilla.status r = true →
  Gorilla.statusCode (fold_left (Gorilla.execOp ctx) ops (r, el)).1
  = Gorilla.statusCode r.
Proof.
  induction ops as [|op ops IH]; intros r el Hs; [done|].
  cbn [fold_left].
  destruct (status_kept_step ctx r el op Hs) as [H1 H2].
  destruct (Gorilla.execOp ctx (r, el) op) as [r' el']. simpl in *.
  by rewrite IH.
Qed.

Lemma WriteHeader_repeat codes : ∀ r,
  Gorilla.status r = true →
  fold_left (λ r code, Gorilla.WriteHeader code r) codes r = r.
Proof.
  induction codes as [|c codes IH]; intros r Hs; [done|].
  cbn [fold_left]. rewrite WriteHeader_set by done. by apply IH.
Qed.

(** C5, amended. First status write wins: the first status-set call on a
    fresh recorder records its code and is forwarded, with the code
    unchanged, to the wrapped writer; every later status-set call changes
    neither the recorder nor the wrapped writer (it is not forwarded), and the
    recorded code stays the first one through any later calls of the handler.
    [StatusCode] reports that code (200 for the code 0). *)
Theorem first_status_wins ctx (code : Z) (codes : list Z)
    (ops : list Http.HandlerOp) (res : W) (capture : bool) (el : list Apt.ATError) :
  let first := Gorilla.WriteHeader code (Gorilla.newRecorder res capture) in
  Gorilla.statusCode first = code
  ∧ Gorilla.ResponseWriter first = Http.WriteHeader code res
  ∧ fold_left (λ r c, Gorilla.WriteHeader c r) codes first = first
  ∧ Gorilla.statusCode (fold_left (Gorilla.execOp ctx) ops (first, el)).1 = code
  ∧ Gorilla.StatusCode (fold_left (Gorilla.execOp ctx) ops (first, el)).1
    = (if bool_decide (code = 0%Z) then 200%Z else code).
Proof.
  intros first.
  assert (Hs : Gorilla.status first = true) by apply WriteHeader_status.
  assert (Hc : Gorilla.statusCode first = code) by reflexivity.
  split; [done|]. split; [done|].
  split; [by apply WriteHeader_repeat|].
  pose proof (status_kept_run ctx ops first el Hs) as Hk.
  split; [by rewrite Hk|].
  unfold Gorilla.StatusCode. rewrite Hk, Hc. reflexivity.
Qed.

(** X3. Bytes written before any status-set call fix the recorded status
    to 200, and that status is forwarded to the wrapped writer before the
    bytes are. *)
Lemma implied_status_is_forwarded (data : bytes) (res : W) (capture : bool) :
  let r := (Gorilla.Write data (Gorilla.newRecorder res capture)).1 in
  Gorilla.statusCode r = 200%Z
  ∧ Gorilla.ResponseWriter r
    = (Http.Write data (Http.WriteHeader Http.StatusOK res)).1.
Proof.
  cbv zeta. unfold Gorilla.Write, Gorilla.WriteHeader, Gorilla.newRecorder.
  destruct capture; cbn;
    match goal with |- context [Http.Write ?d ?w] => destruct (Http.Write d w) end;
    done.
Qed.

Lemma nothing_buffered_step ctx r el op :
  Gorilla.captureBody r = false →
  Gorilla.captureBody (Gorilla.execOp ctx (r, el) op).1 = false
  ∧ Gorilla.body (Gorilla.execOp ctx (r, el) op).1 = Gorilla.body r.
Proof.
  intros Hc. destruct op; simpl; auto.
  - unfold Gorilla.WriteHeader. destruct (Gorilla.status r); simpl; auto.
  - rewrite Write_captureBody. split; [done|]. by apply Write_forwards.
Qed.

(** With capture off the buffer stays as it was through a whole handler
    call. *)
Lemma nothing_buffered_run ctx ops : ∀ r el,
  Gorilla.captureBody r = false →
  Gorilla.body (fold_left (Gorilla.execOp ctx) ops (r, el)).1 = Gorilla.body r.
Proof.
  induction ops as [|op ops IH]; intros r el Hc; [done|].
  cbn [fold_left].
  destruct (nothing_buffered_step ctx r el op Hc) as [H1 H2].
  destruct (Gorilla.execOp ctx (r, el) op) as [r' el']. simpl in *.
  by rewrite IH.
Qed.

(** The error list only grows during a handler call. *)
Lemma errors_grow_step ctx r el op :
  ∃ more, (Gorilla.execOp ctx (r, el) op).2 = el ++ more.
Proof.
  destruct op; simpl; try (by exists []; rewrite app_nil_r).
  unfold Apt.ReportError. destruct (Apt.hasErrorList ctx); eauto.
  exists []. by rewrite app_nil_r.
Qed.

Lemma errors_grow_run ctx ops : ∀ r el,
  ∃ more, (fold_left (Gorilla.execOp ctx) ops (r, el)).2 = el ++ more.
Proof.
  induction ops as [|op ops IH]; intros r el.
  - exists []. by rewrite app_nil_r.
  - cbn [fold_left].
    destruct (errors_grow_step ctx r el op) as [m1 H1].
    destruct (Gorilla.execOp ctx (r, el) op) as [r' el']. simpl in H1. subst el'.
    destruct (IH r' (el ++ m1)) as [m2 H2]. exists (m1 ++ m2).
    by rewrite H2, app_assoc.
Qed.

(** What the recorder ends as does not depend on the error list. *)
Lemma recorder_ignores_errors ctx ops : ∀ r el el',
  (fold_left (Gorilla.execOp ctx) ops (r, el)).1
  = (fold_left (Gorilla.execOp ctx) ops (r, el')).1.
Proof.
  induction ops as [|op ops IH]; intros r el el'; [done|].
  cbn [fold_left].
  destruct op; simpl; apply IH.
Qed.

End RecorderFacts.

(* ===================================================================== *)
(** * The Gorilla middleware *)
(* ===================================================================== *)

Section GorillaFacts.
Context {W : Type} `{!Http.ResponseWriter W}.

(** The middleware, with its steps named. *)
Lemma Middleware_eq config next msgID (res : W) req :
  let newCtx := Apt.WithErrorList (Apt.WithMessageID (Http.Ctx req) msgID) in
  let cap := Gorilla.captureRequest config newCtx (Http.WithContext newCtx req) [] in
  let st := fold_left (Gorilla.execOp (Http.Ctx cap.1.2)) (Http.ops (next cap.1.2))
              (Gorilla.newRecorder res (Gorilla.CaptureResponseBody config), cap.2) in
  Gorilla.Middleware config next msgID res req =
  match Http.outcome (next cap.1.2) with
  | Http.Panics v =>
      {| Gorilla.wire := Gorilla.ResponseWriter st.1;
         Gorilla.span := Apt.End (Apt.StartSpan "monoscope.http");
         Gorilla.ending := Http.Panics v; Gorilla.handled := cap.1.2;
         Gorilla.errors := st.2 |}
  | Http.Returns =>
      {| Gorilla.wire := Gorilla.ResponseWriter st.1;
         Gorilla.span :=
           Apt.End (Apt.CreateSpan
             (Apt.buildPayload Apt.GoGorillaMux (Http.requestLine cap.1.2)
                (Gorilla.StatusCode st.1) cap.1.1
                (if Gorilla.CaptureResponseBody config then Gorilla.body st.1 else [])
                (Http.Header (Gorilla.ResponseWriter st.1)) (Http.Vars cap.1.2)
                (Http.PathTemplate cap.1.2) (Gorilla.RedactHeaders config)
                (Gorilla.RedactRequestBody config) (Gorilla.RedactResponseBody config)
                st.2 msgID None (Http.Referer cap.1.2) (Gorilla.aptConfigOf config))
             (Gorilla.aptConfigOf config) (Apt.StartSpan "monoscope.http"));
         Gorilla.ending := Http.Returns; Gorilla.handled := cap.1.2;
         Gorilla.errors := st.2 |}
  end.
Proof.
  unfold Gorilla.Middleware. cbv zeta.
  destruct (Gorilla.captureRequest _ _ _ _) as [[reqBuf req'] el].
  unfold Gorilla.ServeHTTP. cbv zeta. cbn [fst snd].
  destruct (fold_left _ _ _) as [rec el'].
  destruct (Http.outcome (next req')); reflexivity.
Qed.

(** The request the handler is given. *)
Lemma handled_request config next msgID (res : W) req :
  let newCtx := Apt.WithErrorList (Apt.WithMessageID (Http.Ctx req) msgID) in
  Gorilla.handled (Gorilla.Middleware config next msgID res req)
  = (Gorilla.captureRequest config newCtx (Http.WithContext newCtx req) []).1.2.
Proof.
  cbv zeta. rewrite Middleware_eq. cbv zeta.
  by destruct (Http.outcome _).
Qed.

(** What reaches the real response channel is what the handler wrote through
    the recorder, and the call ends as the handler does. *)
Lemma Middleware_wire config next msgID (res : W) req :
  let s := Gorilla.Middleware config next msgID res req in
  let run := next (Gorilla.handled s) in
  Gorilla.wire s
  = Gorilla.ResponseWriter
      (fold_left (Gorilla.execOp (Http.Ctx (Gorilla.handled s))) (Http.ops run)
         (Gorilla.newRecorder res (Gorilla.CaptureResponseBody config), [])).1
  ∧ Gorilla.ending s = Http.outcome run.
Proof.
  cbv zeta. rewrite Middleware_eq. cbv zeta.
  destruct (Http.outcome _) eqn:O; cbn [Gorilla.handled Gorilla.wire Gorilla.ending];
    rewrite ?O; (split; [|done]); f_equal; apply recorder_ignores_errors.
Qed.

(** X1. The Gorilla middleware attaches one payload when the handler
    returns and none when it panics; the span is ended either way. *)
Lemma gorilla_payload_count config next msgID (res : W) req :
  let s := Gorilla.Middleware config next msgID res req in
  length (Apt.attached (Gorilla.span s))
  = match Gorilla.ending s with Http.Returns => 1 | Http.Panics _ => 0 end
  ∧ Apt.ended (Gorilla.span s) = true.
Proof.
  cbv zeta. rewrite Middleware_eq. cbv zeta. by destruct (Http.outcome _).
Qed.

Lemma readChunks_pending sizes : ∀ rd rd',
  Io.pending rd = Io.pending rd' → Io.readChunks sizes rd = Io.readChunks sizes rd'.
Proof.
  induction sizes as [|n sizes IH]; intros rd rd' E; [done|].
  cbn [Io.readChunks Io.Read]. rewrite E. f_equal. by apply IH.
Qed.

(** C6. Enabling request-body capture does not change the bytes the
    downstream handler reads: whatever the request body, the request given to
    the handler delivers the same bytes, to [io.ReadAll] and to any sequence
    of [Read] calls, with [CaptureRequestBody] true and false; they are the
    bytes of the incoming body. A handler that acts on the bytes it reads
    therefore writes the same response and ends the same way. *)
Theorem request_body_capture_is_transparent (config : Gorilla.Config)
    (next : Http.Handler) (f : bytes → Http.Run) (msgID : N) (res : W)
    (req : Http.Request) (sizes : list nat) :
  let mw flag h :=
    Gorilla.Middleware (Gorilla.withCaptureRequestBody flag config) h msgID res req in
  let reading : Http.Handler := λ rq, f (Io.ReadAll (Http.ReqBody rq)).1 in
  Io.readChunks sizes (Http.ReqBody (Gorilla.handled (mw true next)))
    = Io.readChunks sizes (Http.ReqBody (Gorilla.handled (mw false next)))
  ∧ (Io.ReadAll (Http.ReqBody (Gorilla.handled (mw true next)))).1
    = (Io.ReadAll (Http.ReqBody (Gorilla.handled (mw false next)))).1
  ∧ (Io.ReadAll (Http.ReqBody (Gorilla.handled (mw false next)))).1
    = Io.pending (Http.ReqBody req)
  ∧ Gorilla.wire (mw true reading) = Gorilla.wire (mw false reading)
  ∧ Gorilla.ending (mw true reading) = Gorilla.ending (mw false reading).
Proof.
  intros mw reading. subst mw. cbv beta.
  split; [|split; [|split]].
  - rewrite !handled_request. by apply readChunks_pending.
  - by rewrite !handled_request.
  - by rewrite !handled_request.
  - destruct (Middleware_wire (Gorilla.withCaptureRequestBody true config)
                reading msgID res req) as [W1 E1].
    destruct (Middleware_wire (Gorilla.withCaptureRequestBody false config)
                reading msgID res req) as [W2 E2].
    rewrite W1, W2, E1, E2, !handled_request. done.
Qed.

(** With capture off no response body reaches the payload. *)
Lemma no_response_body_in_payload config next msgID (res : W) req :
  Gorilla.CaptureResponseBody config = false →
  Forall (λ p, Apt.pResponseBody p = None)
    (Apt.attached (Gorilla.span (Gorilla.Middleware config next msgID res req))).
Proof.
  intros Hcfg. rewrite Middleware_eq. cbv zeta.
  destruct (Http.outcome _);
    cbn [Gorilla.span Apt.End Apt.CreateSpan Apt.StartSpan Apt.attached app];
    [|constructor].
  constructor; [|constructor].
  unfold Apt.buildPayload, Gorilla.aptConfigOf.
  cbn [Apt.pResponseBody Apt.CaptureResponseBody]. by rewrite Hcfg.
Qed.

(** C7. When the response-body capture flag is disabled, the bytes passed to
    the recorder's [Write] are forwarded to the wrapped writer (after the
    implied [WriteHeader(200)] if no status was set), [Write]'s result is the
    wrapped writer's, the recorder's buffer is left as it was, through the
    whole handler call, and no response body is included in the payload. *)
Theorem capture_disabled_forwards_unbuffered (config : Gorilla.Config)
    (next : Http.Handler) (msgID : N) (res : W) (req : Http.Request)
    (data : bytes) (r : Gorilla.responseRecorder W) ctx
    (ops : list Http.HandlerOp) (el : list Apt.ATError) :
  Gorilla.CaptureResponseBody config = false →
  Gorilla.captureBody r = false →
  let w := if Gorilla.status r then Gorilla.ResponseWriter r
           else Http.WriteHeader Http.StatusOK (Gorilla.ResponseWriter r) in
  (Gorilla.ResponseWriter (Gorilla.Write data r).1, (Gorilla.Write data r).2)
    = Http.Write data w
  ∧ Gorilla.body (Gorilla.Write data r).1 = Gorilla.body r
  ∧ Gorilla.body (fold_left (Gorilla.execOp ctx) ops (r, el)).1 = Gorilla.body r
  ∧ Forall (λ p, Apt.pResponseBody p = None)
      (Apt.attached (Gorilla.span (Gorilla.Middleware config next msgID res req))).
Proof.
  intros Hcfg Hr w.
  destruct (Write_forwards data r Hr) as (Hb & Hw & Hres). fold w in Hw, Hres.
  split; [rewrite Hw, Hres; by destruct (Http.Write data w)|].
  split; [done|].
  split; [by apply nothing_buffered_run|].
  by apply no_response_body_in_payload.
Qed.

Lemma captureRequest_failed config msgID req e :
  Gorilla.CaptureRequestBody config = true →
  Io.failure (Http.ReqBody req) = Some e →
  let newCtx := Apt.WithErrorList (Apt.WithMessageID (Http.Ctx req) msgID) in
  Gorilla.captureRequest config newCtx (Http.WithContext newCtx req) []
  = (Io.pending (Http.ReqBody req),
     Http.WithBody (Io.NewBuffer (Io.pending (Http.ReqBody req)))
       (Http.WithContext newCtx req),
     [Apt.toATError e]).
Proof.
  intros Hcfg Hfail newCtx. unfold Gorilla.captureRequest, Io.ReadAll.
  rewrite Hcfg. cbn [Http.ReqBody Http.WithContext]. by rewrite Hfail.
Qed.

(** C8, amended. If reading the request body fails, the middleware degrades
    to a capture of the bytes read before the failure (empty only if none
    was read): it records the read error as the first reported error, still
    invokes the downstream handler, on a request whose body delivers those
    bytes, ends as the handler ends, and when the handler returns builds the
    one payload, with those bytes as request body and the error in its error
    list. *)
Theorem unreadable_body_degrades_to_partial_capture (config : Gorilla.Config)
    (next : Http.Handler) (msgID : N) (res : W) (req : Http.Request)
    (e : Apt.error) :
  Gorilla.CaptureRequestBody config = true →
  Io.failure (Http.ReqBody req) = Some e →
  let s := Gorilla.Middleware config next msgID res req in
  let read := Io.pending (Http.ReqBody req) in
  Http.ReqBody (Gorilla.handled s) = Io.NewBuffer read
  ∧ Gorilla.ending s = Http.outcome (next (Gorilla.handled s))
  ∧ (∃ later, Gorilla.errors s = Apt.toATError e :: later)
  ∧ (Gorilla.ending s = Http.Returns →
     ∃ p, Apt.attached (Gorilla.span s) = [p]
          ∧ Apt.pRequestBody p
            = Some (Apt.redact read (Gorilla.RedactRequestBody config))
          ∧ Apt.pErrors p = Gorilla.errors s).
Proof.
  intros Hcfg Hfail s read. subst s. rewrite Middleware_eq. cbv zeta.
  rewrite (captureRequest_failed config msgID req e Hcfg Hfail). cbn [fst snd].
  match goal with |- context [fold_left (Gorilla.execOp ?c) ?ops (?r0, ?el0)] =>
    destruct (errors_grow_run c ops r0 el0) as [later Hl];
    set (st := fold_left (Gorilla.execOp c) ops (r0, el0)) in *
  end.
  destruct (Http.outcome _) eqn:O;
    cbn [Gorilla.handled Gorilla.ending Gorilla.errors Gorilla.span Http.ReqBody
         Http.WithBody]; rewrite ?O.
  - split; [done|]. split; [done|]. split; [eexists; rewrite Hl; reflexivity|].
    intros _. eexists. split; [reflexivity|].
    unfold Apt.buildPayload, Gorilla.aptConfigOf.
    cbn [Apt.pRequestBody Apt.pErrors Apt.CaptureRequestBody]. by rewrite Hcfg.
  - split; [done|]. split; [done|]. split; [eexists; rewrite Hl; reflexivity|].
    intros [=].
Qed.

End GorillaFacts.

(* ===================================================================== *)
(** * The Fiber middleware *)
(* ===================================================================== *)

Section FiberFacts.

(** The loop of lines 57 to 60 builds a map equal to the one it reads. *)
Lemma copyHeaders_id (h : Apt.Header) : Fiber.copyHeaders h = h.
Proof.
  unfold Fiber.copyHeaders.
  apply (map_fold_weak_ind (λ r m, r = m)); [done|].
  by intros k v m r _ ->.
Qed.

Lemma fiber_op_keeps_context st op :
  Fiber.UserContext (Fiber.execOp st op).1 = Fiber.UserContext st.1.
Proof. destruct st as [c el], op; reflexivity. Qed.

Lemma fiber_run_keeps_context ops : ∀ st,
  Fiber.UserContext (fold_left Fiber.execOp ops st).1 = Fiber.UserContext st.1.
Proof.
  induction ops as [|op ops IH]; intros st; [done|].
  cbn [fold_left]. by rewrite IH, fiber_op_keeps_context.
Qed.

(** The middleware, with its steps named. *)
Lemma Fiber_Middleware_eq config next msgID c :
  let c0 := Fiber.entering msgID c in
  let st := (Fiber.Next next (c0, [])).1 in
  Fiber.Middleware config next msgID c =
  match Fiber.outcome (next c0) with
  | Fiber.Panics v =>
      Fiber.recovered config v st.1 (Fiber.copyHeaders (Fiber.GetRespHeaders c0))
        st.2 msgID (Apt.StartSpan "monoscope.http")
  | Fiber.Returns err =>
      {| Fiber.ctx := st.1;
         Fiber.span :=
           Apt.End (Apt.CreateSpan
             (Fiber.payloadOf config st.1 (Fiber.ResponseStatus st.1)
                (Fiber.copyHeaders (Fiber.GetRespHeaders c0)) st.2 msgID)
             (Fiber.getAptConfig config) (Apt.StartSpan "monoscope.http"));
         Fiber.ending := Fiber.Returns err;
         Fiber.errors := st.2 |}
  end.
Proof.
  unfold Fiber.Middleware, Fiber.Next. cbv zeta. cbn [fst snd].
  destruct (fold_left _ _ _) as [c' el].
  destruct (Fiber.outcome _); reflexivity.
Qed.

(** When the handler panics, the user context still carries the error
    list. *)
Lemma fiber_context_kept next msgID c :
  Apt.hasErrorList
    (Fiber.UserContext (Fiber.Next next (Fiber.entering msgID c, [])).1.1) = true.
Proof. unfold Fiber.Next. cbn [fst]. by rewrite fiber_run_keeps_context. Qed.

(** C2, amended. When the downstream handler panics, the middleware, after
    attaching the one payload, panics again: with the same value if the
    handler panicked with an error, and with an error made of the message
    ([errors.New]) if the handler panicked with a string. The panic is not
    suppressed. *)
Theorem panic_is_reraised_after_telemetry (config : Fiber.Config)
    (next : Fiber.Handler) (msgID : N) (c : Fiber.Ctx) (v : Apt.any) :
  Fiber.outcome (next (Fiber.entering msgID c)) = Fiber.Panics v →
  let s := Fiber.Middleware config next msgID c in
  (∀ e, v = Apt.AnyError e →
     Fiber.ending s = Fiber.Panics (Apt.AnyError e)
     ∧ length (Apt.attached (Fiber.span s)) = 1)
  ∧ (∀ str, v = Apt.AnyString str →
     Fiber.ending s = Fiber.Panics (Apt.AnyError (Apt.errors_New str))
     ∧ length (Apt.attached (Fiber.span s)) = 1).
Proof.
  intros Hout s. subst s. rewrite Fiber_Middleware_eq. cbv zeta. rewrite Hout.
  split; intros x ->; unfold Fiber.recovered; cbn; done.
Qed.

(** C3. When the downstream handler panics, every payload built for the
    request carries status 500, whatever status the handler had set, and its
    error list is the errors reported during the handler call followed by
    exactly one entry, derived from the panic value: from the error the
    handler panicked with, or from [errors.New] of the string. For a panic
    with an error or a string that payload is built. *)
Theorem panic_payload_has_500_and_one_entry (config : Fiber.Config)
    (next : Fiber.Handler) (msgID : N) (c : Fiber.Ctx) (v : Apt.any) :
  Fiber.outcome (next (Fiber.entering msgID c)) = Fiber.Panics v →
  let s := Fiber.Middleware config next msgID c in
  let reported := (Fiber.Next next (Fiber.entering msgID c, [])).1.2 in
  Forall (λ p, Apt.pStatusCode p = 500%Z
               ∧ ∃ e, (Apt.asError v = Some e
                       ∨ ∃ str, Apt.asString v = Some str ∧ e = Apt.errors_New str)
                      ∧ Apt.pErrors p = reported ++ [Apt.toATError e])
    (Apt.attached (Fiber.span s))
  ∧ (is_Some (Apt.asError v) ∨ is_Some (Apt.asString v) →
     length (Apt.attached (Fiber.span s)) = 1).
Proof.
  intros Hout s reported. subst s. rewrite Fiber_Middleware_eq. cbv zeta.
  rewrite Hout. fold reported.
  pose proof (fiber_context_kept next msgID c) as Hctx.
  unfold Fiber.recovered.
  destruct v as [e|str|t rp]; cbn [Apt.asError Apt.asString].
  - cbn [Fiber.span Apt.End Apt.CreateSpan Apt.StartSpan Apt.attached app].
    split; [|done]. constructor; [|constructor].
    split; [done|]. exists e. split; [by left|].
    unfold Fiber.payloadOf, Apt.buildPayload, Apt.ReportError. cbn [Apt.pErrors].
    by rewrite Hctx.
  - cbn [Fiber.span Apt.End Apt.CreateSpan Apt.StartSpan Apt.attached app].
    split; [|done]. constructor; [|constructor].
    split; [done|]. exists (Apt.errors_New str). split; [right; eauto|].
    unfold Fiber.payloadOf, Apt.buildPayload, Apt.ReportError. cbn [Apt.pErrors].
    by rewrite Hctx.
  - cbn [Fiber.span Apt.End Apt.StartSpan Apt.attached].
    split; [constructor|]. intros [[? [=]]|[? [=]]].
Qed.

(** C10, amended. The response-header map placed into the payload is the
    copy of the response headers taken before the downstream handler is
    invoked, redacted: a header set under a name that was not set before the
    handler ran is absent from it, whatever the handler sets, and a name that
    was set before keeps the values it had then. When the handler returns
    that payload is attached. *)
Theorem payload_headers_are_the_earlier_ones (config : Fiber.Config)
    (next : Fiber.Handler) (msgID : N) (c : Fiber.Ctx) :
  let s := Fiber.Middleware config next msgID c in
  Forall (λ p, Apt.pResponseHeaders p
               = Apt.redactHeaders (Fiber.RedactHeaders config) (Fiber.RespHeaders c)
               ∧ ∀ k, Fiber.RespHeaders c !! k = None →
                      Apt.pResponseHeaders p !! k = None)
    (Apt.attached (Fiber.span s))
  ∧ (∀ err, Fiber.ending s = Fiber.Returns err →
            length (Apt.attached (Fiber.span s)) = 1).
Proof.
  intros s.
  assert (Hhdr : ∀ c' sc el, Apt.pResponseHeaders
            (Fiber.payloadOf config c' sc
               (Fiber.copyHeaders (Fiber.GetRespHeaders (Fiber.entering msgID c))) el msgID)
          = Apt.redactHeaders (Fiber.RedactHeaders config) (Fiber.RespHeaders c)).
  { intros. unfold Fiber.payloadOf, Apt.buildPayload. cbn [Apt.pResponseHeaders].
    by rewrite copyHeaders_id. }
  assert (Hnone : ∀ k, Fiber.RespHeaders c !! k = None →
            Apt.redactHeaders (Fiber.RedactHeaders config) (Fiber.RespHeaders c) !! k = None).
  { intros k Hk. unfold Apt.redactHeaders. apply map_lookup_filter_None. by left. }
  subst s. rewrite Fiber_Middleware_eq. cbv zeta.
  destruct (Fiber.outcome _) as [err|v].
  - cbn [Fiber.span Fiber.ending Apt.End Apt.CreateSpan Apt.StartSpan Apt.attached app].
    split; [|done]. constructor; [|constructor]. rewrite Hhdr. auto.
  - unfold Fiber.recovered.
    destruct v as [e|str|t rp]; cbn [Apt.asError Apt.asString];
      cbn [Fiber.span Fiber.ending Apt.End Apt.CreateSpan Apt.StartSpan Apt.attached app].
    + split; [|done]. constructor; [|constructor]. rewrite Hhdr. auto.
    + split; [|done]. constructor; [|constructor]. rewrite Hhdr. auto.
    + split; [constructor|done].
Qed.

(** X2. The Fiber middleware attaches one payload when the handler returns
    or panics with an error or a string, and none when it panics with a value
    of another type; the span is ended either way. *)
Lemma fiber_payload_count config next msgID c :
  let s := Fiber.Middleware config next msgID c in
  match Fiber.outcome (next (Fiber.entering msgID c)) with
  | Fiber.Returns _ | Fiber.Panics (Apt.AnyError _) | Fiber.Panics (Apt.AnyString _) =>
      length (Apt.attached (Fiber.span s)) = 1
  | Fiber.Panics (Apt.AnyOther _ _) => length (Apt.attached (Fiber.span s)) = 0
  end
  ∧ Apt.ended (Fiber.span s) = true.
Proof.
  cbv zeta. rewrite Fiber_Middleware_eq. cbv zeta.
  destruct (Fiber.outcome _) as [err|[e|str|t rp]]; by cbn.
Qed.

End FiberFacts.

(* ===================================================================== *)
(** * The repository's tests and other concrete runs *)
(* ===================================================================== *)

Section Runs.
Import Scenarios.

(** The test "handler with no explicit status code": the client and the
    payload both see 200. *)
Example test_no_explicit_status :
  let s := Gorilla.Middleware gorillaConfig noStatusHandler 1 Http.NewRecorder
             (testRequest "GET" (Io.NewBuffer [])) in
  Http.Code (Gorilla.wire s) = 200%Z
  ∧ Http.Body (Gorilla.wire s) = b "No status set"
  ∧ Apt.pStatusCode <$> Apt.attached (Gorilla.span s) = [200%Z]
  ∧ Apt.pResponseBody <$> Apt.attached (Gorilla.span s) = [Some (b "No status set")].
Proof. vm_compute. done. Qed.

(** The test "handler with empty response". *)
Example test_empty_response :
  let s := Gorilla.Middleware gorillaConfig emptyHandler 1 Http.NewRecorder
             (testRequest "GET" (Io.NewBuffer [])) in
  Http.Code (Gorilla.wire s) = 200%Z
  ∧ Http.Body (Gorilla.wire s) = []
  ∧ Apt.pStatusCode <$> Apt.attached (Gorilla.span s) = [200%Z].
Proof. vm_compute. done. Qed.

(** The test "request with body capture": 201 is set, then bytes are
    written; the handler reads the body it was sent. *)
Example test_body_capture :
  let s := Gorilla.Middleware gorillaConfig createdHandler 1 Http.NewRecorder
             (testRequest "POST" (Io.NewBuffer loginBody)) in
  Http.Code (Gorilla.wire s) = 201%Z
  ∧ (Io.ReadAll (Http.ReqBody (Gorilla.handled s))).1 = loginBody
  ∧ Apt.pStatusCode <$> Apt.attached (Gorilla.span s) = [201%Z]
  ∧ Apt.pRequestBody <$> Apt.attached (Gorilla.span s) = [Some loginBody].
Proof. vm_compute. done. Qed.

(** C1, at a handler that panics behind the Gorilla middleware: the span is
    ended with no payload attached, and the panic goes on. *)
Theorem gorilla_panic_emits_no_payload :
  let s := Gorilla.Middleware gorillaConfig panickingHandler 1 Http.newWire
             (testRequest "GET" (Io.NewBuffer [])) in
  Apt.attached (Gorilla.span s) = []
  ∧ Apt.ended (Gorilla.span s) = true
  ∧ Gorilla.ending s = Http.Panics (Apt.AnyString "boom")
  ∧ Http.calls (Gorilla.wire s)
    = [Http.WireWriteHeader 200; Http.WireWrite (b "Before")].
Proof. vm_compute. done. Qed.

(** The same handler behind the Fiber middleware leaves one payload. *)
Example fiber_panic_emits_one_payload :
  let s := Fiber.Middleware fiberConfig fiberPanicString 1 (fiberCtx ∅) in
  Apt.pStatusCode <$> Apt.attached (Fiber.span s) = [500%Z]
  ∧ Apt.ended (Fiber.span s) = true.
Proof. vm_compute. done. Qed.

(** A panic with a value that is neither an error nor a string: the type
    assertion of line 65 panics in the deferred function, before any payload
    is built. *)
Example fiber_panic_int_emits_no_payload :
  let s := Fiber.Middleware fiberConfig fiberPanicInt 1 (fiberCtx ∅) in
  Apt.attached (Fiber.span s) = []
  ∧ Fiber.ending s
    = Fiber.Panics (Apt.AnyError (Apt.typeAssertionError (Apt.AnyOther "int" "42"))).
Proof. vm_compute. done. Qed.

(** C2 as stated fails: the handler panics with the string [boom], the outer
    layer recovers an error value. *)
Lemma string_panic_is_not_reraised_unchanged :
  Fiber.outcome (fiberPanicString (Fiber.entering 1 (fiberCtx ∅)))
    = Fiber.Panics (Apt.AnyString "boom")
  ∧ Fiber.ending (Fiber.Middleware fiberConfig fiberPanicString 1 (fiberCtx ∅))
    = Fiber.Panics (Apt.AnyError (Apt.errors_New "boom"))
  ∧ Fiber.ending (Fiber.Middleware fiberConfig fiberPanicString 1 (fiberCtx ∅))
    ≠ Fiber.Panics (Apt.AnyString "boom").
Proof. vm_compute. repeat split; discriminate. Qed.

(** C5 as stated fails: of two status-set calls only the first reaches the
    real response channel. *)
Lemma second_status_is_not_forwarded :
  Http.calls (Gorilla.ResponseWriter
    (fold_left (λ r code, Gorilla.WriteHeader code r) [201%Z; 404%Z]
       (Gorilla.newRecorder Http.newWire false)))
    = [Http.WireWriteHeader 201]
  ∧ Http.calls (Gorilla.ResponseWriter
    (fold_left (λ r code, Gorilla.WriteHeader code r) [201%Z; 404%Z]
       (Gorilla.newRecorder Http.newWire false)))
    ≠ [Http.WireWriteHeader 201; Http.WireWriteHeader 404].
Proof. vm_compute. split; [reflexivity|discriminate]. Qed.

(** C8 as stated fails: the body delivers two bytes and then fails, and the
    capture holds the two bytes. *)
Lemma unreadable_body_capture_is_not_empty :
  Io.failure (Http.ReqBody brokenRequest) = Some unexpectedEOF
  ∧ Apt.pRequestBody <$> Apt.attached (Gorilla.span
      (Gorilla.Middleware gorillaConfig echoHandler 1 Http.newWire brokenRequest))
    = [Some (b "ab")]
  ∧ Apt.pRequestBody <$> Apt.attached (Gorilla.span
      (Gorilla.Middleware gorillaConfig echoHandler 1 Http.newWire brokenRequest))
    ≠ [Some []].
Proof. vm_compute. repeat split; discriminate. Qed.

(** C10 as stated fails: the handler sets [X-Powered-By], which an earlier
    middleware had set, and the payload's response headers hold it. *)
Lemma header_set_by_handler_is_in_payload :
  Fiber.DoSet "X-Powered-By" "fiber"
    ∈ Fiber.ops (fiberSetsHeader (Fiber.entering 1 (fiberCtx poweredBy)))
  ∧ (λ p, Apt.pResponseHeaders p !! "X-Powered-By")
      <$> Apt.attached (Fiber.span
            (Fiber.Middleware fiberConfig fiberSetsHeader 1 (fiberCtx poweredBy)))
    = [Some ["fiber"]].
Proof. split; [apply list_elem_of_here|vm_compute; reflexivity]. Qed.

(** A header the handler sets under a new name is in the response and not in
    the payload. *)
Example new_header_is_not_in_payload :
  let s := Fiber.Middleware fiberConfig fiberSetsHeader 1 (fiberCtx poweredBy) in
  Fiber.RespHeaders (Fiber.ctx s) !! "X-Test" = Some ["value"]
  ∧ (λ p, Apt.pResponseHeaders p !! "X-Test") <$> Apt.attached (Fiber.span s)
    = [None].
Proof. vm_compute. done. Qed.

End Runs.

(* ===================================================================== *)
(** * The hypotheses of the theorems hold on concrete runs *)
(* ===================================================================== *)

Section Witnesses.
Import Scenarios.

(** The handler of the test "handler with no explicit status code". *)
Lemma status_defaults_to_200_witness :
  forallb (λ op, negb (Http.setsStatus op)) [Http.DoWrite (b "No status set")] = true
  ∧ Gorilla.StatusCode
      (fold_left (Gorilla.execOp Apt.Background) [Http.DoWrite (b "No status set")]
         (Gorilla.newRecorder Http.newWire true, [])).1
    = 200%Z.
Proof.
  split; [reflexivity|].
  apply (status_defaults_to_200 Apt.Background [Http.DoWrite (b "No status set")]
           Http.newWire true []).
  reflexivity.
Defined.

(** The configuration of the test "request without body capture", and a
    fresh recorder with capture off. *)
Lemma capture_disabled_forwards_unbuffered_witness :
  Gorilla.CaptureResponseBody gorillaNoCapture = false
  ∧ Gorilla.captureBody (Gorilla.newRecorder Http.newWire false) = false
  ∧ (Gorilla.ResponseWriter
       (Gorilla.Write (b "Response") (Gorilla.newRecorder Http.newWire false)).1,
     (Gorilla.Write (b "Response") (Gorilla.newRecorder Http.newWire false)).2)
    = Http.Write (b "Response") (Http.WriteHeader Http.StatusOK Http.newWire)
  ∧ Gorilla.body
      (Gorilla.Write (b "Response") (Gorilla.newRecorder Http.newWire false)).1 = []
  ∧ Gorilla.body
      (fold_left (Gorilla.execOp Apt.Background)
         [Http.DoWriteHeader 200; Http.DoWrite (b "Response")]
         (Gorilla.newRecorder Http.newWire false, [])).1 = []
  ∧ Forall (λ p, Apt.pResponseBody p = None)
      (Apt.attached (Gorilla.span
         (Gorilla.Middleware gorillaNoCapture noStatusHandler 1 Http.newWire
            (testRequest "POST" (Io.NewBuffer loginBody))))).
Proof.
  split; [reflexivity|]. split; [reflexivity|].
  apply (capture_disabled_forwards_unbuffered gorillaNoCapture noStatusHandler 1
           Http.newWire (testRequest "POST" (Io.NewBuffer loginBody))
           (b "Response") (Gorilla.newRecorder Http.newWire false) Apt.Background
           [Http.DoWriteHeader 200; Http.DoWrite (b "Response")] []);
    reflexivity.
Defined.

(** A request whose body fails after two bytes. *)
Lemma unreadable_body_degrades_to_partial_capture_witness :
  Gorilla.CaptureRequestBody gorillaConfig = true
  ∧ Io.failure (Http.ReqBody brokenRequest) = Some unexpectedEOF
  ∧ Http.ReqBody (Gorilla.handled
      (Gorilla.Middleware gorillaConfig echoHandler 1 Http.newWire brokenRequest))
    = Io.NewBuffer (b "ab")
  ∧ ∃ later, Gorilla.errors
      (Gorilla.Middleware gorillaConfig echoHandler 1 Http.newWire brokenRequest)
    = Apt.toATError unexpectedEOF :: later.
Proof.
  split; [reflexivity|]. split; [reflexivity|].
  pose proof (unreadable_body_degrades_to_partial_capture gorillaConfig echoHandler 1
                Http.newWire brokenRequest unexpectedEOF eq_refl eq_refl)
    as (Hbody & _ & Herr & _).
  split; [exact Hbody|exact Herr].
Defined.

(** A handler that panics with a string. *)
Lemma panic_is_reraised_after_telemetry_witness :
  Fiber.outcome (fiberPanicString (Fiber.entering 1 (fiberCtx ∅)))
    = Fiber.Panics (Apt.AnyString "boom")
  ∧ Fiber.ending (Fiber.Middleware fiberConfig fiberPanicString 1 (fiberCtx ∅))
    = Fiber.Panics (Apt.AnyError (Apt.errors_New "boom"))
  ∧ length (Apt.attached (Fiber.span
      (Fiber.Middleware fiberConfig fiberPanicString 1 (fiberCtx ∅)))) = 1.
Proof.
  split; [reflexivity|].
  exact (proj2 (panic_is_reraised_after_telemetry fiberConfig fiberPanicString 1
                  (fiberCtx ∅) (Apt.AnyString "boom") eq_refl) "boom" eq_refl).
Defined.

(** A handler that sets 404, reports an error and panics with an error. *)
Lemma panic_payload_has_500_and_one_entry_witness :
  Fiber.outcome (fiberPanicError (Fiber.entering 1 (fiberCtx ∅)))
    = Fiber.Panics (Apt.AnyError (Apt.errors_New "boom"))
  ∧ Forall (λ p, Apt.pStatusCode p = 500%Z
                 ∧ ∃ e, (Apt.asError (Apt.AnyError (Apt.errors_New "boom")) = Some e
                         ∨ ∃ str, Apt.asString (Apt.AnyError (Apt.errors_New "boom"))
                                    = Some str ∧ e = Apt.errors_New str)
                        ∧ Apt.pErrors p
                          = (Fiber.Next fiberPanicError
                               (Fiber.entering 1 (fiberCtx ∅), [])).1.2
                            ++ [Apt.toATError e])
      (Apt.attached (Fiber.span
         (Fiber.Middleware fiberConfig fiberPanicError 1 (fiberCtx ∅))))
  ∧ length (Apt.attached (Fiber.span
      (Fiber.Middleware fiberConfig fiberPanicError 1 (fiberCtx ∅)))) = 1.
Proof.
  split; [reflexivity|].
  pose proof (panic_payload_has_500_and_one_entry fiberConfig fiberPanicError 1
                (fiberCtx ∅) (Apt.AnyError (Apt.errors_New "boom")) eq_refl)
    as [Hall Hone].
  split; [exact Hall|]. apply Hone. left. eexists. reflexivity.
Defined.

End Witnesses.

(* ===================================================================== *)
(** * What the handler's calls amount to, in the response and the payload *)
(* ===================================================================== *)

Section MoreRecorder.
Context {W : Type} `{!Http.ResponseWriter W}.
Implicit Types (r : Gorilla.responseRecorder W) (op : Http.HandlerOp).

(** What [Write] adds to the buffer. *)
Lemma Write_body data r :
  Gorilla.body (Gorilla.Write data r).1
  = Gorilla.body r ++ (if Gorilla.captureBody r then data else []).
Proof.
  unfold Gorilla.Write, Gorilla.WriteHeader.
  destruct (Gorilla.captureBody r) eqn:C, (Gorilla.status r) eqn:E; simpl;
    rewrite ?E; simpl;
    match goal with |- context [Http.Write ?d ?w] => destruct (Http.Write d w) end;
    simpl; by rewrite ?app_nil_r.
Qed.

(** What [Write] hands to the wrapped writer, and what it returns. *)
Lemma Write_writer data r :
  (Gorilla.ResponseWriter (Gorilla.Write data r).1, (Gorilla.Write data r).2)
  = Http.Write data
      (if Gorilla.status r then Gorilla.ResponseWriter r
       else Http.WriteHeader Http.StatusOK (Gorilla.ResponseWriter r)).
Proof.
  unfold Gorilla.Write, Gorilla.WriteHeader.
  destruct (Gorilla.captureBody r) eqn:C, (Gorilla.status r) eqn:E; simpl;
    rewrite ?E; simpl;
    match goal with |- context [Http.Write ?d ?w] => destruct (Http.Write d w) end;
    done.
Qed.

Lemma execOp_captureBody ctx r el op :
  Gorilla.captureBody (Gorilla.execOp ctx (r, el) op).1 = Gorilla.captureBody r.
Proof.
  destruct op; simpl; auto.
  - unfold Gorilla.WriteHeader. by destruct (Gorilla.status r).
  - apply Write_captureBody.
Qed.

(** The buffer after a handler call: what it was, then all the bytes
    written, if capture is on. *)
Lemma run_body ctx ops : ∀ r el,
  Gorilla.body (fold_left (Gorilla.execOp ctx) ops (r, el)).1
  = Gorilla.body r ++ (if Gorilla.captureBody r then Http.written ops else []).
Proof.
  induction ops as [|op ops IH]; intros r el.
  - cbn. by destruct (Gorilla.captureBody r); rewrite app_nil_r.
  - cbn [fold_left].
    pose proof (execOp_captureBody ctx r el op) as Hc.
    destruct (Gorilla.execOp ctx (r, el) op) as [r' el'] eqn:E. cbn [fst] in Hc.
    rewrite IH, Hc.
    assert (Hb : Gorilla.body r' = Gorilla.body r ++
              (if Gorilla.captureBody r
               then match op with Http.DoWrite d => d | _ => [] end else [])).
    { destruct op; simpl in E; injection E as <- _; cbn;
        rewrite ?app_nil_r; try (by destruct (Gorilla.captureBody r); rewrite ?app_nil_r).
      - unfold Gorilla.WriteHeader.
        by destruct (Gorilla.status r), (Gorilla.captureBody r); rewrite app_nil_r.
      - apply Write_body. }
    rewrite Hb. destruct (Gorilla.captureBody r); [|by rewrite !app_nil_r].
    rewrite <- app_assoc. f_equal. by destruct op.
Qed.

(** The recorded code after a handler call on a recorder with no status
    yet. *)
Lemma run_statusCode ctx ops : ∀ r el,
  Gorilla.status r = false →
  Gorilla.statusCode (fold_left (Gorilla.execOp ctx) ops (r, el)).1
  = default (Gorilla.statusCode r) (Http.firstStatus ops).
Proof.
  induction ops as [|op ops IH]; intros r el Hs; [done|].
  cbn [fold_left].
  destruct op; cbn [Http.firstStatus]; unfold Gorilla.execOp at 2; cbn beta iota.
  - apply (IH (Gorilla.setHeader _ _ r)). exact Hs.
  - apply (IH (Gorilla.setHeader _ _ r)). exact Hs.
  - rewrite status_kept_run by apply WriteHeader_status.
    unfold Gorilla.WriteHeader. by rewrite Hs.
  - destruct (Write_statusCode data r) as [H1 H2].
    rewrite status_kept_run by done. by rewrite H2, Hs.
  - by apply IH.
Qed.

(** The error list after a handler call. *)
Lemma run_errors ctx ops : ∀ r el,
  (fold_left (Gorilla.execOp ctx) ops (r, el)).2
  = el ++ (if Apt.hasErrorList ctx then Apt.toATError <$> Http.reported ops else []).
Proof.
  induction ops as [|op ops IH]; intros r el.
  - cbn. by destruct (Apt.hasErrorList ctx); rewrite app_nil_r.
  - cbn [fold_left].
    destruct op; unfold Gorilla.execOp at 2; cbn beta iota; rewrite IH; try done.
    unfold Apt.ReportError. destruct (Apt.hasErrorList ctx); [|done].
    by rewrite <- app_assoc.
Qed.
(** X4. [Write] on the recorder hands the bytes to the wrapped writer, after
    the implied [WriteHeader(200)] if no status was set, and returns the
    wrapped writer's result, whether capture is on or off; the bytes are
    added to the buffer exactly when capture is on, and the status is set
    afterwards. *)
Theorem write_is_passed_on_whatever_the_capture_flag (data : bytes) r :
  (Gorilla.ResponseWriter (Gorilla.Write data r).1, (Gorilla.Write data r).2)
    = Http.Write data
        (if Gorilla.status r then Gorilla.ResponseWriter r
         else Http.WriteHeader Http.StatusOK (Gorilla.ResponseWriter r))
  ∧ Gorilla.body (Gorilla.Write data r).1
    = Gorilla.body r ++ (if Gorilla.captureBody r then data else [])
  ∧ Gorilla.captureBody (Gorilla.Write data r).1 = Gorilla.captureBody r
  ∧ Gorilla.status (Gorilla.Write data r).1 = true.
Proof.
  split; [apply Write_writer|]. split; [apply Write_body|].
  split; [apply Write_captureBody|]. apply Write_statusCode.
Qed.

End MoreRecorder.

(** ** What the real response channel receives *)


Lemma Write_writer_fst {W : Type} `{!Http.ResponseWriter W} data
    (r : Gorilla.responseRecorder W) :
  Gorilla.ResponseWriter (Gorilla.Write data r).1
  = (Http.Write data
      (if Gorilla.status r then Gorilla.ResponseWriter r
       else Http.WriteHeader Http.StatusOK (Gorilla.ResponseWriter r))).1.
Proof. by rewrite <- Write_writer. Qed.

Lemma wire_calls_set ctx ops : ∀ (r : Gorilla.responseRecorder Http.Wire) el,
  Gorilla.status r = true →
  Http.calls (Gorilla.ResponseWriter (fold_left (Gorilla.execOp ctx) ops (r, el)).1)
  = Http.calls (Gorilla.ResponseWriter r) ++ (Http.WireWrite <$> Http.writesOf ops).
Proof.
  induction ops as [|op ops IH]; intros r el Hs.
  - cbn. by rewrite app_nil_r.
  - cbn [fold_left].
    destruct op; unfold Gorilla.execOp at 2; cbn beta iota.
    + rewrite IH by exact Hs. done.
    + rewrite IH by exact Hs. done.
    + rewrite WriteHeader_set by done. by rewrite IH.
    + destruct (Write_statusCode data r) as [H1 _].
      rewrite IH by done. rewrite Write_writer_fst, Hs.
      cbn [Http.Write Http.wire_response_writer fst Http.calls].
      by rewrite <- app_assoc.
    + by rewrite IH.
Qed.

Lemma wire_calls_fresh ctx ops : ∀ (r : Gorilla.responseRecorder Http.Wire) el,
  Gorilla.status r = false →
  Http.calls (Gorilla.ResponseWriter (fold_left (Gorilla.execOp ctx) ops (r, el)).1)
  = Http.calls (Gorilla.ResponseWriter r) ++ Http.statusLine ops
    ++ (Http.WireWrite <$> Http.writesOf ops).
Proof.
  induction ops as [|op ops IH]; intros r el Hs.
  - cbn. by rewrite app_nil_r.
  - cbn [fold_left].
    destruct op; unfold Gorilla.execOp at 2; cbn beta iota.
    + rewrite IH by exact Hs. done.
    + rewrite IH by exact Hs. done.
    + rewrite wire_calls_set by apply WriteHeader_status.
      unfold Gorilla.WriteHeader. rewrite Hs.
      unfold Http.statusLine; cbn [Http.firstStatus negb Gorilla.ResponseWriter Http.WriteHeader Http.wire_response_writer Http.calls].
      by rewrite <- app_assoc.
    + destruct (Write_statusCode data r) as [H1 _].
      rewrite wire_calls_set by done. rewrite Write_writer_fst, Hs.
      cbn [Http.Write Http.WriteHeader Http.wire_response_writer fst Http.calls].
      rewrite <- !app_assoc. done.
    + rewrite IH by exact Hs. done.
Qed.

(** ** The writer of the tests: through the recorder as without it *)

Lemma recorderWriteHeader_wrote code (w : Http.ResponseRecorder) :
  Http.wroteHeader (Http.recorderWriteHeader code w) = true.
Proof. unfold Http.recorderWriteHeader. by destruct (Http.wroteHeader w) eqn:E. Qed.

Lemma recorderWriteHeader_again code (w : Http.ResponseRecorder) :
  Http.wroteHeader w = true → Http.recorderWriteHeader code w = w.
Proof. unfold Http.recorderWriteHeader. by intros ->. Qed.

Lemma recorder_Write_implies_header data (w : Http.ResponseRecorder) :
  Http.Write data (Http.WriteHeader Http.StatusOK w) = Http.Write data w.
Proof.
  cbn [Http.Write Http.WriteHeader Http.recorder_response_writer].
  by rewrite (recorderWriteHeader_again _ (Http.recorderWriteHeader _ w))
    by apply recorderWriteHeader_wrote.
Qed.

Lemma recorder_Write_wrote data (w : Http.ResponseRecorder) :
  Http.wroteHeader (Http.Write data w).1 = true.
Proof.
  cbn [Http.Write Http.recorder_response_writer fst Http.wroteHeader].
  apply recorderWriteHeader_wrote.
Qed.

Lemma recorder_transparent_step ctx (r : Gorilla.responseRecorder Http.ResponseRecorder) el op :
  (Gorilla.status r = true → Http.wroteHeader (Gorilla.ResponseWriter r) = true) →
  Gorilla.ResponseWriter (Gorilla.execOp ctx (r, el) op).1
  = Http.serveOp (Gorilla.ResponseWriter r) op
  ∧ (Gorilla.status (Gorilla.execOp ctx (r, el) op).1 = true →
     Http.wroteHeader (Gorilla.ResponseWriter (Gorilla.execOp ctx (r, el) op).1) = true).
Proof.
  intros Hinv. destruct op; unfold Gorilla.execOp; cbn beta iota; cbn [fst Http.serveOp].
  - split; [done|]. exact Hinv.
  - split; [done|]. exact Hinv.
  - destruct (Gorilla.status r) eqn:Hs.
    + rewrite WriteHeader_set by done. split; [|by intros _; apply Hinv].
      symmetry. apply recorderWriteHeader_again. by apply Hinv.
    + unfold Gorilla.WriteHeader. rewrite Hs. cbn [negb Gorilla.ResponseWriter].
      split; [done|]. intros _. apply recorderWriteHeader_wrote.
  - assert (E : Gorilla.ResponseWriter (Gorilla.Write data r).1
                = (Http.Write data (Gorilla.ResponseWriter r)).1).
    { rewrite Write_writer_fst. destruct (Gorilla.status r); [done|].
      by rewrite recorder_Write_implies_header. }
    split; [done|]. intros _. rewrite E. apply recorder_Write_wrote.
  - split; [done|]. exact Hinv.
Qed.

Lemma recorder_transparent_run ctx ops :
  ∀ (r : Gorilla.responseRecorder Http.ResponseRecorder) el,
  (Gorilla.status r = true → Http.wroteHeader (Gorilla.ResponseWriter r) = true) →
  Gorilla.ResponseWriter (fold_left (Gorilla.execOp ctx) ops (r, el)).1
  = Http.serve ops (Gorilla.ResponseWriter r).
Proof.
  induction ops as [|op ops IH]; intros r el Hinv; [done|].
  cbn [fold_left]. unfold Http.serve. cbn [fold_left].
  destruct (recorder_transparent_step ctx r el op Hinv) as [E Hinv'].
  destruct (Gorilla.execOp ctx (r, el) op) as [r' el']. cbn [fst] in *.
  rewrite IH by done. by rewrite E.
Qed.

Section MoreGorilla.
Context {W : Type} `{!Http.ResponseWriter W}.

(** The context of the request the handler is given. *)
Lemma handled_context config next msgID (res : W) req :
  Http.Ctx (Gorilla.handled (Gorilla.Middleware config next msgID res req))
  = Apt.WithErrorList (Apt.WithMessageID (Http.Ctx req) msgID).
Proof.
  rewrite handled_request. cbv zeta. unfold Gorilla.captureRequest.
  destruct (Gorilla.CaptureRequestBody config); [|done].
  by destruct (Io.ReadAll _).
Qed.


(** Lines 57 to 66, case by case. *)
Lemma captureRequest_eq config msgID req :
  let newCtx := Apt.WithErrorList (Apt.WithMessageID (Http.Ctx req) msgID) in
  Gorilla.captureRequest config newCtx (Http.WithContext newCtx req) []
  = (if Gorilla.CaptureRequestBody config then Io.pending (Http.ReqBody req) else [],
     if Gorilla.CaptureRequestBody config
     then Http.WithBody (Io.NewBuffer (Io.pending (Http.ReqBody req)))
            (Http.WithContext newCtx req)
     else Http.WithContext newCtx req,
     Gorilla.readErrors config req).
Proof.
  cbv zeta. unfold Gorilla.captureRequest, Gorilla.readErrors, Io.ReadAll.
  destruct (Gorilla.CaptureRequestBody config); [|done].
  cbn [Http.ReqBody Http.WithContext]. by destruct (Io.failure _).
Qed.

(** What a request leaves, in terms of the state the handler's calls
    reach. *)
Lemma Middleware_run config next msgID (res : W) req :
  let s := Gorilla.Middleware config next msgID res req in
  let ops := Http.ops (next (Gorilla.handled s)) in
  let st := fold_left (Gorilla.execOp (Http.Ctx (Gorilla.handled s))) ops
              (Gorilla.newRecorder res (Gorilla.CaptureResponseBody config),
               Gorilla.readErrors config req) in
  Gorilla.wire s = Gorilla.ResponseWriter st.1
  ∧ Gorilla.errors s = st.2
  ∧ Apt.attached (Gorilla.span s)
    = match Http.outcome (next (Gorilla.handled s)) with
      | Http.Panics _ => []
      | Http.Returns =>
          [Apt.buildPayload Apt.GoGorillaMux (Http.requestLine (Gorilla.handled s))
             (Gorilla.StatusCode st.1)
             (if Gorilla.CaptureRequestBody config then Io.pending (Http.ReqBody req) else [])
             (if Gorilla.CaptureResponseBody config then Gorilla.body st.1 else [])
             (Http.Header (Gorilla.ResponseWriter st.1)) (Http.Vars (Gorilla.handled s))
             (Http.PathTemplate (Gorilla.handled s)) (Gorilla.RedactHeaders config)
             (Gorilla.RedactRequestBody config) (Gorilla.RedactResponseBody config)
             st.2 msgID None (Http.Referer (Gorilla.handled s))
             (Gorilla.aptConfigOf config)]
      end.
Proof.
  cbv zeta. rewrite handled_request. cbv zeta.
  rewrite Middleware_eq. cbv zeta. rewrite captureRequest_eq. cbn [fst snd].
  by destruct (Http.outcome _).
Qed.

(** X5. The response body in the Gorilla payload is the redaction of all the
    bytes the handler wrote, in order, when response capture is on, and is
    absent when it is off. *)
Theorem payload_response_body_is_what_was_written config next msgID (res : W) req :
  let s := Gorilla.Middleware config next msgID res req in
  let ops := Http.ops (next (Gorilla.handled s)) in
  Forall (λ p, Apt.pResponseBody p
               = if Gorilla.CaptureResponseBody config
                 then Some (Apt.redact (Http.written ops) (Gorilla.RedactResponseBody config))
                 else None)
    (Apt.attached (Gorilla.span s)).
Proof.
  intros s ops. destruct (Middleware_run config next msgID res req) as (_ & _ & Hp).
  fold s in Hp. rewrite Hp. fold ops.
  destruct (Http.outcome _); constructor; [|constructor].
  unfold Apt.buildPayload, Gorilla.aptConfigOf.
  cbn [Apt.pResponseBody Apt.CaptureResponseBody].
  destruct (Gorilla.CaptureResponseBody config); [|done].
  by rewrite run_body.
Qed.

(** X6. The status in the Gorilla payload is the first status the handler
    fixed: the code of its first [WriteHeader] if that comes before any
    [Write], the 200 implied by its first [Write] otherwise, and 200 if the
    handler made neither call (or passed the code 0). *)
Theorem payload_status_is_the_first_status config next msgID (res : W) req :
  let s := Gorilla.Middleware config next msgID res req in
  let ops := Http.ops (next (Gorilla.handled s)) in
  Forall (λ p, Apt.pStatusCode p
               = match Http.firstStatus ops with
                 | Some code => if bool_decide (code = 0%Z) then 200%Z else code
                 | None => 200%Z
                 end)
    (Apt.attached (Gorilla.span s)).
Proof.
  intros s ops. destruct (Middleware_run config next msgID res req) as (_ & _ & Hp).
  fold s in Hp. rewrite Hp. fold ops.
  destruct (Http.outcome _); constructor; [|constructor].
  unfold Apt.buildPayload. cbn [Apt.pStatusCode].
  unfold Gorilla.StatusCode. rewrite run_statusCode by done.
  by destruct (Http.firstStatus ops).
Qed.

(** X7. In the Gorilla middleware the handler's request context carries the
    message id, and every error the handler reports is appended to the
    request's error list: the list ends as the read error of the body, if
    any, followed by the handler's errors in the order reported, and that is
    the error list of the payload, which carries the same message id. *)
Theorem reported_errors_reach_the_payload config next msgID (res : W) req :
  let s := Gorilla.Middleware config next msgID res req in
  let ops := Http.ops (next (Gorilla.handled s)) in
  Apt.messageID (Http.Ctx (Gorilla.handled s)) = Some msgID
  ∧ Gorilla.errors s
    = Gorilla.readErrors config req ++ (Apt.toATError <$> Http.reported ops)
  ∧ Forall (λ p, Apt.pErrors p = Gorilla.errors s ∧ Apt.pMsgID p = msgID)
      (Apt.attached (Gorilla.span s)).
Proof.
  intros s ops. destruct (Middleware_run config next msgID res req) as (_ & He & Hp).
  fold s in Hp, He. fold ops in He.
  pose proof (handled_context config next msgID res req) as Hc. fold s in Hc.
  split; [by rewrite Hc|].
  rewrite run_errors in He. rewrite Hc in He. cbn [Apt.hasErrorList Apt.WithErrorList] in He.
  split; [done|].
  rewrite Hp. destruct (Http.outcome _); constructor; [|constructor].
  unfold Apt.buildPayload. cbn [Apt.pErrors Apt.pMsgID]. split; [|done].
  rewrite Hc. by rewrite He, run_errors.
Qed.

(** X8. With request capture on the handler is given a buffer of the bytes
    read, with capture off the incoming body itself; the request body in the
    payload is the redaction of exactly the bytes the handler can read when
    capture is on, and is absent when it is off. *)
Theorem payload_request_body_is_what_the_handler_reads config next msgID (res : W) req :
  let s := Gorilla.Middleware config next msgID res req in
  Http.ReqBody (Gorilla.handled s)
    = (if Gorilla.CaptureRequestBody config
       then Io.NewBuffer (Io.pending (Http.ReqBody req)) else Http.ReqBody req)
  ∧ Forall (λ p, Apt.pRequestBody p
                 = if Gorilla.CaptureRequestBody config
                   then Some (Apt.redact (Io.ReadAll (Http.ReqBody (Gorilla.handled s))).1
                                (Gorilla.RedactRequestBody config))
                   else None)
      (Apt.attached (Gorilla.span s)).
Proof.
  intros s. destruct (Middleware_run config next msgID res req) as (_ & _ & Hp).
  fold s in Hp.
  assert (Hb : Http.ReqBody (Gorilla.handled s)
    = (if Gorilla.CaptureRequestBody config
       then Io.NewBuffer (Io.pending (Http.ReqBody req)) else Http.ReqBody req)).
  { subst s. rewrite handled_request. cbv zeta. rewrite captureRequest_eq. cbn [fst snd].
    by destruct (Gorilla.CaptureRequestBody config). }
  split; [done|].
  rewrite Hp. destruct (Http.outcome _); constructor; [|constructor].
  unfold Apt.buildPayload, Gorilla.aptConfigOf.
  cbn [Apt.pRequestBody Apt.CaptureRequestBody]. rewrite Hb.
  by destruct (Gorilla.CaptureRequestBody config).
Qed.
(** X16. With request capture on, a failed read of the body is not seen by
    the handler: the body it is given ends with EOF after the bytes read,
    so its own [io.ReadAll] returns no error; with capture off the handler's
    read ends as the incoming body does. *)
Theorem capture_hides_the_read_error_from_the_handler (config : Gorilla.Config)
    (next : Http.Handler) (msgID : N) (res : W) (req : Http.Request) :
  let s := Gorilla.Middleware config next msgID res req in
  (Io.ReadAll (Http.ReqBody (Gorilla.handled s))).2
    = (if Gorilla.CaptureRequestBody config then None
       else Io.failure (Http.ReqBody req))
  ∧ (Io.ReadAll (Http.ReqBody (Gorilla.handled s))).1 = Io.pending (Http.ReqBody req).
Proof.
  intros s. subst s. rewrite handled_request. cbv zeta.
  rewrite captureRequest_eq. cbn [fst snd].
  by destruct (Gorilla.CaptureRequestBody config).
Qed.

End MoreGorilla.

(** X9. Through the Gorilla middleware the real response channel receives,
    after what it had received before, at most one [WriteHeader] call, with
    the first status, and then every [Write] of the handler with its bytes,
    in order; the middleware itself writes nothing. *)
Theorem real_channel_gets_one_status_then_the_writes config next msgID
    (res : Http.Wire) req :
  let s := Gorilla.Middleware config next msgID res req in
  let ops := Http.ops (next (Gorilla.handled s)) in
  Http.calls (Gorilla.wire s)
  = Http.calls res ++ Http.statusLine ops ++ (Http.WireWrite <$> Http.writesOf ops).
Proof.
  intros s ops. destruct (Middleware_run config next msgID res req) as (Hw & _ & _).
  fold s in Hw. rewrite Hw. fold ops. by rewrite wire_calls_fresh.
Qed.


Lemma serve_code_set ops : ∀ (w : Http.ResponseRecorder),
  Http.wroteHeader w = true → Http.Code (Http.serve ops w) = Http.Code w.
Proof.
  unfold Http.serve.
  induction ops as [|op ops IH]; intros w Hw; [done|].
  cbn [fold_left]. destruct op; cbn [Http.serveOp].
  - by rewrite IH.
  - by rewrite IH.
  - cbn [Http.WriteHeader Http.recorder_response_writer].
    rewrite recorderWriteHeader_again by done. by apply IH.
  - rewrite IH by apply recorder_Write_wrote.
    cbn [Http.Write Http.recorder_response_writer fst Http.Code].
    by rewrite recorderWriteHeader_again.
  - by apply IH.
Qed.

Lemma serve_code_fresh ops : ∀ (w : Http.ResponseRecorder),
  Http.wroteHeader w = false →
  Http.Code (Http.serve ops w) = default (Http.Code w) (Http.firstStatus ops).
Proof.
  unfold Http.serve.
  induction ops as [|op ops IH]; intros w Hw; [done|].
  cbn [fold_left]. destruct op; cbn [Http.serveOp Http.firstStatus].
  - by rewrite IH.
  - by rewrite IH.
  - fold (Http.serve ops (Http.WriteHeader code w)).
    rewrite serve_code_set by apply recorderWriteHeader_wrote.
    cbn. unfold Http.recorderWriteHeader. by rewrite Hw.
  - fold (Http.serve ops (Http.Write data w).1).
    rewrite serve_code_set by apply recorder_Write_wrote.
    cbn. unfold Http.recorderWriteHeader. by rewrite Hw.
  - by apply IH.
Qed.

(** X11. On a fresh response writer of the tests, the status in the Gorilla
    payload is the status the client is sent (200 in place of the code 0). *)
Theorem payload_status_is_the_status_sent config next msgID req :
  let s := Gorilla.Middleware config next msgID Http.NewRecorder req in
  Forall (λ p, Apt.pStatusCode p
               = if bool_decide (Http.Code (Gorilla.wire s) = 0%Z) then 200%Z
                 else Http.Code (Gorilla.wire s))
    (Apt.attached (Gorilla.span s)).
Proof.
  intros s.
  destruct (Middleware_run config next msgID Http.NewRecorder req) as (Hw & _ & Hp).
  fold s in Hw, Hp. rewrite Hw, Hp.
  destruct (Http.outcome _); constructor; [|constructor].
  unfold Apt.buildPayload. cbn [Apt.pStatusCode].
  rewrite recorder_transparent_run by done.
  rewrite serve_code_fresh by done.
  unfold Gorilla.StatusCode. rewrite run_statusCode by done.
  cbn [Gorilla.newRecorder Gorilla.statusCode Gorilla.ResponseWriter Http.NewRecorder Http.Code].
  by destruct (Http.firstStatus _).
Qed.

Lemma serve_app {W : Type} `{!Http.ResponseWriter W} ops1 ops2 (w : W) :
  Http.serve (ops1 ++ ops2) w = Http.serve ops2 (Http.serve ops1 w).
Proof. unfold Http.serve. apply fold_left_app. Qed.

Lemma serve_header_untouched k ops : ∀ (w : Http.ResponseRecorder),
  forallb (λ op, negb (Http.touchesHeader k op)) ops = true →
  Http.HeaderMap (Http.serve ops w) !! k = Http.HeaderMap w !! k.
Proof.
  unfold Http.serve.
  induction ops as [|op ops IH]; intros w Hops; [done|].
  cbn [forallb] in Hops. apply andb_true_iff in Hops as [Hop Hops].
  apply negb_true_iff in Hop.
  cbn [fold_left]. rewrite IH by done.
  destruct op; cbn [Http.serveOp Http.touchesHeader] in *.
  - apply bool_decide_eq_false in Hop. cbn. by rewrite lookup_insert_ne.
  - apply bool_decide_eq_false in Hop. cbn. by rewrite lookup_insert_ne.
  - cbn. unfold Http.recorderWriteHeader. by destruct (Http.wroteHeader w).
  - cbn. unfold Http.recorderWriteHeader. by destruct (Http.wroteHeader w).
  - done.
Qed.

(** X12. In the Gorilla middleware a response header the handler sets, and
    does not touch again, is in the response and, unless its name is
    redacted, in the payload's response headers with the value set. The name
    [k] is the key the header map stores, the canonical form that
    [Header().Set] gives the name. *)
Theorem header_set_by_the_handler_reaches_the_payload config next msgID
    (res : Http.ResponseRecorder) req pre post k v :
  let s := Gorilla.Middleware config next msgID res req in
  Http.ops (next (Gorilla.handled s)) = pre ++ Http.DoHeaderSet k v :: post →
  forallb (λ op, negb (Http.touchesHeader k op)) post = true →
  bool_decide (Apt.toLower k ∈ Apt.toLower <$> Gorilla.RedactHeaders config) = false →
  Http.HeaderMap (Gorilla.wire s) !! k = Some [v]
  ∧ Forall (λ p, Apt.pResponseHeaders p !! k = Some [v])
      (Apt.attached (Gorilla.span s)).
Proof.
  intros s Hops Hpost Hred. apply bool_decide_eq_false in Hred.
  destruct (Middleware_run config next msgID res req) as (Hw & _ & Hp).
  fold s in Hw, Hp.
  assert (Hk : Http.HeaderMap (Gorilla.wire s) !! k = Some [v]).
  { rewrite Hw, recorder_transparent_run by done. rewrite Hops.
    cbn [Gorilla.newRecorder Gorilla.ResponseWriter].
    rewrite serve_app. change (Http.DoHeaderSet k v :: post)
      with ([Http.DoHeaderSet k v] ++ post).
    rewrite serve_app, serve_header_untouched by done.
    cbn. apply lookup_insert_eq. }
  split; [done|].
  rewrite Hp. destruct (Http.outcome _); constructor; [|constructor].
  unfold Apt.buildPayload. cbn [Apt.pResponseHeaders].
  unfold Apt.redactHeaders. apply map_lookup_filter_Some. split; [|done].
  rewrite <- Hw. exact Hk.
Qed.

(** ** The Fiber middleware, again *)



Lemma fiber_run_status ops : ∀ c el,
  Fiber.ResponseStatus (fold_left Fiber.execOp ops (c, el)).1
  = Fiber.lastStatus (Fiber.ResponseStatus c) ops.
Proof.
  unfold Fiber.lastStatus.
  induction ops as [|op ops IH]; intros c el; [done|].
  cbn [fold_left]. destruct op; cbn [Fiber.execOp]; by rewrite IH.
Qed.

Lemma fiber_run_errors ops : ∀ c el,
  (fold_left Fiber.execOp ops (c, el)).2
  = el ++ (if Apt.hasErrorList (Fiber.UserContext c)
           then Apt.toATError <$> Fiber.reported ops else []).
Proof.
  induction ops as [|op ops IH]; intros c el.
  - cbn. by destruct (Apt.hasErrorList _); rewrite app_nil_r.
  - cbn [fold_left]. destruct op; cbn [Fiber.execOp]; rewrite IH; try done.
    unfold Apt.ReportError. destruct (Apt.hasErrorList _); [|done].
    by rewrite <- app_assoc.
Qed.


(** X14. When the handler chain returns, the Fiber payload carries the
    status of the last [Status] call (the status the response had before, if
    there is none), the errors the handler reported, in order, and the
    message id. *)
Theorem fiber_payload_on_return config next msgID c err :
  Fiber.outcome (next (Fiber.entering msgID c)) = Fiber.Returns err →
  let s := Fiber.Middleware config next msgID c in
  let ops := Fiber.ops (next (Fiber.entering msgID c)) in
  ∃ p, Apt.attached (Fiber.span s) = [p]
       ∧ Apt.pStatusCode p = Fiber.lastStatus (Fiber.ResponseStatus c) ops
       ∧ Apt.pErrors p = Apt.toATError <$> Fiber.reported ops
       ∧ Apt.pMsgID p = msgID.
Proof.
  intros Hout s ops. subst s. rewrite Fiber_Middleware_eq. cbv zeta. rewrite Hout.
  cbn [Fiber.span Apt.End Apt.CreateSpan Apt.StartSpan Apt.attached app].
  eexists. split; [reflexivity|].
  unfold Fiber.payloadOf, Apt.buildPayload.
  cbn [Apt.pStatusCode Apt.pErrors Apt.pMsgID]. unfold Fiber.Next. cbn [fst snd].
  rewrite fiber_run_status, fiber_run_errors.
  change (Apt.hasErrorList (Fiber.UserContext (Fiber.entering msgID c))) with true.
  done.
Qed.

(** X15. When the handler panics with a value that is neither an error nor
    a string, the type assertion of line 65 fails: the Fiber middleware ends
    with the panic of that failed assertion in place of the handler's value,
    attaches no payload and reports no error for the panic. *)
Theorem fiber_panic_of_another_type_is_replaced config next msgID c t rp :
  Fiber.outcome (next (Fiber.entering msgID c)) = Fiber.Panics (Apt.AnyOther t rp) →
  let s := Fiber.Middleware config next msgID c in
  Fiber.ending s
    = Fiber.Panics (Apt.AnyError (Apt.typeAssertionError (Apt.AnyOther t rp)))
  ∧ Apt.attached (Fiber.span s) = []
  ∧ Fiber.errors s
    = Apt.toATError <$> Fiber.reported (Fiber.ops (next (Fiber.entering msgID c))).
Proof.
  intros Hout s. subst s. rewrite Fiber_Middleware_eq. cbv zeta. rewrite Hout.
  unfold Fiber.recovered. cbn [Apt.asError Apt.asString Fiber.ending Fiber.span Fiber.errors
    Apt.End Apt.StartSpan Apt.attached].
  split; [done|]. split; [done|].
  unfold Fiber.Next. cbn [fst snd]. rewrite fiber_run_errors.
  by change (Apt.hasErrorList (Fiber.UserContext (Fiber.entering msgID c))) with true.
Qed.

(* ===================================================================== *)
(** * Their hypotheses hold on concrete runs *)
(* ===================================================================== *)

Section MoreWitnesses.
Import Scenarios.

(** The test "basic request with 200 response": [X-Test] is set once. *)
Lemma header_set_by_the_handler_reaches_the_payload_witness :
  Http.ops (basicHandler (Gorilla.handled
      (Gorilla.Middleware gorillaConfig basicHandler 1 Http.NewRecorder
         (testRequest "GET" (Io.NewBuffer [])))))
    = [] ++ Http.DoHeaderSet "X-Test" "value"
         :: [Http.DoWriteHeader Http.StatusOK; Http.DoWrite (b "OK")]
  ∧ forallb (λ op, negb (Http.touchesHeader "X-Test" op))
      [Http.DoWriteHeader Http.StatusOK; Http.DoWrite (b "OK")] = true
  ∧ bool_decide (Apt.toLower "X-Test"
                 ∈ Apt.toLower <$> Gorilla.RedactHeaders gorillaConfig) = false
  ∧ Http.HeaderMap (Gorilla.wire
      (Gorilla.Middleware gorillaConfig basicHandler 1 Http.NewRecorder
         (testRequest "GET" (Io.NewBuffer [])))) !! "X-Test" = Some ["value"]
  ∧ Forall (λ p, Apt.pResponseHeaders p !! "X-Test" = Some ["value"])
      (Apt.attached (Gorilla.span
         (Gorilla.Middleware gorillaConfig basicHandler 1 Http.NewRecorder
            (testRequest "GET" (Io.NewBuffer []))))).
Proof.
  split; [reflexivity|]. split; [reflexivity|]. split; [reflexivity|].
  apply (header_set_by_the_handler_reaches_the_payload gorillaConfig basicHandler 1
           Http.NewRecorder (testRequest "GET" (Io.NewBuffer [])) []
           [Http.DoWriteHeader Http.StatusOK; Http.DoWrite (b "OK")]
           "X-Test" "value");
    reflexivity.
Defined.

(** A handler chain that sets two headers and returns. *)
Lemma fiber_payload_on_return_witness :
  Fiber.outcome (fiberSetsHeader (Fiber.entering 1 (fiberCtx ∅))) = Fiber.Returns None
  ∧ ∃ p, Apt.attached (Fiber.span
           (Fiber.Middleware fiberConfig fiberSetsHeader 1 (fiberCtx ∅))) = [p]
         ∧ Apt.pStatusCode p
           = Fiber.lastStatus (Fiber.ResponseStatus (fiberCtx ∅))
               (Fiber.ops (fiberSetsHeader (Fiber.entering 1 (fiberCtx ∅))))
         ∧ Apt.pErrors p
           = Apt.toATError
               <$> Fiber.reported
                     (Fiber.ops (fiberSetsHeader (Fiber.entering 1 (fiberCtx ∅))))
         ∧ Apt.pMsgID p = 1%N.
Proof.
  split; [reflexivity|].
  exact (fiber_payload_on_return fiberConfig fiberSetsHeader 1 (fiberCtx ∅) None eq_refl).
Defined.

(** [panic(42)]. *)
Lemma fiber_panic_of_another_type_is_replaced_witness :
  Fiber.outcome (fiberPanicInt (Fiber.entering 1 (fiberCtx ∅)))
    = Fiber.Panics (Apt.AnyOther "int" "42")
  ∧ Fiber.ending (Fiber.Middleware fiberConfig fiberPanicInt 1 (fiberCtx ∅))
    = Fiber.Panics (Apt.AnyError (Apt.typeAssertionError (Apt.AnyOther "int" "42")))
  ∧ Apt.attached (Fiber.span
      (Fiber.Middleware fiberConfig fiberPanicInt 1 (fiberCtx ∅))) = []
  ∧ Fiber.errors (Fiber.Middleware fiberConfig fiberPanicInt 1 (fiberCtx ∅))
    = Apt.toATError
        <$> Fiber.reported (Fiber.ops (fiberPanicInt (Fiber.entering 1 (fiberCtx ∅)))).
Proof.
  split; [reflexivity|].
  exact (fiber_panic_of_another_type_is_replaced fiberConfig fiberPanicInt 1
           (fiberCtx ∅) "int" "42" eq_refl).
Defined.

End MoreWitnesses.
